(** * servicenow.py: a shallow embedding of the ServiceNow tool server

    The module under verification exposes a set of tools over one
    transport helper, [_make_servicenow_request].  Tools build a payload
    mapping, call the helper, and turn its result (or the [ValueError] it
    raises) into a line of text.

    Layout of this development:
    - [Py]: the fragment of the Python runtime the module relies on
      (values, [str]/[repr], truthiness, [str.lower], [str.zfill],
      [timedelta], exception classes);
    - [Httpx]: requests, responses and the remote service;
    - [Eff]: the effect monad (remote service, request log, exceptions)
      with [try ... except];
    - the functions of servicenow.py, under their source names;
    - the properties.

    Strings are sequences of code units; [str.lower] is modelled on the
    ASCII range, which is exact for every comparison the module makes
    (all keys it compares against are ASCII and contain no letter k, the
    only ASCII letter that is the lower case of a non-ASCII code point).
    Of [str.lower] on text outside ASCII (a [mandatory] given as such
    text) and of [repr] on non-printable characters outside ASCII nothing
    is claimed.

    Debug [print] calls are left out.  The one inside the helper's [try]
    evaluates [json.dumps(payload)], which raises only when the payload
    holds an [int] of more than 4300 digits; [json_safe] marks the values
    free of such ints, and every statement that asserts a request for an
    [int] or a mapping supplied by the caller assumes it of them. *)

From Stdlib Require Import ZArith List String Ascii Bool Lia DecimalString.
Import ListNotations.
Local Open Scope string_scope.
Local Open Scope Z_scope.
Set Warnings "-register-all".

(* ===================================================================== *)
(** * The Python runtime fragment *)
(* ===================================================================== *)

Module Py.

(** JSON-shaped Python values: what [response.json()] yields and what a
    payload mapping holds.  A [dict] keeps insertion order. *)
Inductive value : Type :=
| VNone
| VBool (b : bool)
| VInt (n : Z)
| VStr (s : string)
| VList (l : list value)
| VDict (d : list (string * value)).

Definition dict := list (string * value).

(** ** Strings *)

(** [sep.join(parts)] *)
Fixpoint join (sep : string) (parts : list string) : string :=
  match parts with
  | [] => ""
  | [p] => p
  | p :: rest => p ++ sep ++ join sep rest
  end.

Definition lower_ascii (c : ascii) : ascii :=
  let n := N_of_ascii c in
  if ((65 <=? n) && (n <=? 90))%N then ascii_of_N (n + 32) else c.

(** [s.lower()] *)
Fixpoint lower (s : string) : string :=
  match s with
  | EmptyString => EmptyString
  | String c r => String (lower_ascii c) (lower r)
  end.

(** [str(n)] for an [int] *)
Definition itoa (n : Z) : string := NilZero.string_of_int (Z.to_int n).

Fixpoint zeros (k : nat) : string :=
  match k with
  | O => ""
  | S k' => String "0" (zeros k')
  end.

(** [s.zfill(width)]: zeros go after a leading sign. *)
Definition zfill (width : nat) (s : string) : string :=
  let pad := zeros (width - String.length s) in
  match s with
  | String "+" r => String "+" (pad ++ r)
  | String "-" r => String "-" (pad ++ r)
  | _ => pad ++ s
  end.

(** [s.split(sep)[0]] for a one-character separator: the text before its
    first occurrence, or all of [s]. *)
Fixpoint split_head (sep : ascii) (s : string) : string :=
  match s with
  | EmptyString => EmptyString
  | String c r => if Ascii.eqb c sep then EmptyString else String c (split_head sep r)
  end.

(** [s.rstrip(c)] for a one-character set. *)
Fixpoint rstrip (c : ascii) (s : string) : string :=
  match s with
  | EmptyString => EmptyString
  | String a r =>
      match rstrip c r with
      | EmptyString => if Ascii.eqb a c then EmptyString else String a EmptyString
      | r' => String a r'
      end
  end.

(** [needle in hay] on strings. *)
Fixpoint contains (hay needle : string) : bool :=
  String.prefix needle hay ||
  match hay with
  | EmptyString => false
  | String _ r => contains r needle
  end.

(** ** [repr] and [str] *)

Definition hex_digit (n : N) : ascii :=
  if (n <? 10)%N then ascii_of_N (48 + n) else ascii_of_N (87 + n).

Definition has_char (c : ascii) (s : string) : bool :=
  contains s (String c EmptyString).

(** [repr] of a [str]: single quotes unless the text has a single quote
    and no double quote; backslash, the chosen quote, tab, newline,
    carriage return and the other ASCII control characters are escaped.
    Code units from 128 up are kept as they are. *)
Fixpoint repr_chars (q : ascii) (s : string) : string :=
  match s with
  | EmptyString => EmptyString
  | String c r =>
      let n := N_of_ascii c in
      (if Ascii.eqb c q || Ascii.eqb c "\" then String "\" (String c EmptyString)
       else if (n =? 9)%N then "\t"
       else if (n =? 10)%N then "\n"
       else if (n =? 13)%N then "\r"
       else if ((n <? 32) || (n =? 127))%N
            then String "\" (String "x" (String (hex_digit (n / 16))
                   (String (hex_digit (n mod 16)) EmptyString)))
       else String c EmptyString) ++ repr_chars q r
  end.

Definition repr_str (s : string) : string :=
  let q := if has_char "'" s && negb (has_char "034" s) then "034"%char else "'"%char in
  String q (repr_chars q s ++ String q EmptyString).

Fixpoint repr (v : value) : string :=
  match v with
  | VNone => "None"
  | VBool true => "True"
  | VBool false => "False"
  | VInt n => itoa n
  | VStr s => repr_str s
  | VList l => "[" ++ join ", " (map repr l) ++ "]"
  | VDict d =>
      "{" ++ join ", " (map (fun '(k, x) => repr_str k ++ ": " ++ repr x) d) ++ "}"
  end.

(** [str(v)], also what an f-string field [{v}] inserts. *)
Definition str (v : value) : string :=
  match v with
  | VStr s => s
  | _ => repr v
  end.

(** Truth value of [v] in [if v], [not v], [a or b]. *)
Definition truthy (v : value) : bool :=
  match v with
  | VNone => false
  | VBool b => b
  | VInt n => negb (n =? 0)
  | VStr s => negb (String.eqb s "")
  | VList l => match l with [] => false | _ => true end
  | VDict d => match d with [] => false | _ => true end
  end.

(** [type(v).__name__] *)
Definition type_name (v : value) : string :=
  match v with
  | VNone => "NoneType"
  | VBool _ => "bool"
  | VInt _ => "int"
  | VStr _ => "str"
  | VList _ => "list"
  | VDict _ => "dict"
  end.

(** ** Mappings *)

Fixpoint lookup (k : string) (d : dict) : option value :=
  match d with
  | [] => None
  | (k', v) :: r => if String.eqb k k' then Some v else lookup k r
  end.

(** [k in d] *)
Definition has_key (k : string) (d : dict) : bool :=
  match lookup k d with Some _ => true | None => false end.

(** [d.get(k, default)] *)
Definition dict_get (d : dict) (k : string) (default : value) : value :=
  match lookup k d with Some v => v | None => default end.

(** [d[k] = v]: overwrite in place, or append a new key. *)
Fixpoint dict_set (d : dict) (k : string) (v : value) : dict :=
  match d with
  | [] => [(k, v)]
  | (k', v') :: r =>
      if String.eqb k k' then (k', v) :: r else (k', v') :: dict_set r k v
  end.

(** An optional [str] argument ([str | None]) as a value. *)
Definition of_opt (o : option string) : value :=
  match o with Some s => VStr s | None => VNone end.

(** [a or b] for [a : str | None] and [b : str]. *)
Definition or_else (a : option string) (b : string) : string :=
  match a with
  | Some s => if String.eqb s "" then b else s
  | None => b
  end.

(** [if a:] for [a : str | None] *)
Definition given (a : option string) : bool := truthy (of_opt a).

(** [str(b).lower()] for a [bool] *)
Definition bool_lower (b : bool) : string := lower (str (VBool b)).

(** ** Exceptions *)

(** The exception classes the module meets.  [Exception] stands for the
    base class in [except Exception]; [OtherException n] is any further
    class deriving directly from it, named [n]. *)
Inductive exc_class : Type :=
| Exception
| HTTPStatusError
| RequestError
| ValueError
| JSONDecodeError
| AttributeError
| TypeError
| KeyError
| OverflowError
| OtherException (name : string).

Definition exc_class_eqb (a b : exc_class) : bool :=
  match a, b with
  | Exception, Exception | HTTPStatusError, HTTPStatusError
  | RequestError, RequestError | ValueError, ValueError
  | JSONDecodeError, JSONDecodeError | AttributeError, AttributeError
  | TypeError, TypeError | KeyError, KeyError
  | OverflowError, OverflowError => true
  | OtherException n, OtherException m => String.eqb n m
  | _, _ => false
  end.

(** [issubclass(c, h)]: [json.JSONDecodeError] derives from [ValueError],
    everything derives from [Exception]. *)
Definition issubclass (c h : exc_class) : bool :=
  match h with
  | Exception => true
  | ValueError =>
      match c with ValueError | JSONDecodeError => true | _ => false end
  | _ => exc_class_eqb c h
  end.

(** [cls.__name__] *)
Definition class_name (c : exc_class) : string :=
  match c with
  | Exception => "Exception"
  | HTTPStatusError => "HTTPStatusError"
  | RequestError => "RequestError"
  | ValueError => "ValueError"
  | JSONDecodeError => "JSONDecodeError"
  | AttributeError => "AttributeError"
  | TypeError => "TypeError"
  | KeyError => "KeyError"
  | OverflowError => "OverflowError"
  | OtherException n => n
  end.

(** ** [datetime.timedelta] *)

(** A normalised [timedelta]: days and seconds with [0 <= seconds < 86400]. *)
Record timedelta : Type := { td_days : Z; td_seconds : Z }.

Definition max_delta_days : Z := 999999999.

(** [timedelta(seconds=n)]: [None] is the [OverflowError] of a day count
    beyond [max_delta_days]. *)
Definition timedelta_of_seconds (n : Z) : option timedelta :=
  let d := n / 86400 in
  if Z.abs d >? max_delta_days then None
  else Some {| td_days := d; td_seconds := n mod 86400 |}.

(** ["%02d" % n] *)
Definition fmt_02d (n : Z) : string := zfill 2 (itoa n).

(** [str(td)], after [timedelta.__str__] (no microseconds here). *)
Definition timedelta_str (td : timedelta) : string :=
  let mm := td_seconds td / 60 in
  let ss := td_seconds td mod 60 in
  let hh := mm / 60 in
  let mm := mm mod 60 in
  let s := itoa hh ++ ":" ++ fmt_02d mm ++ ":" ++ fmt_02d ss in
  if td_days td =? 0 then s
  else itoa (td_days td) ++ " day"
       ++ (if Z.abs (td_days td) =? 1 then "" else "s") ++ ", " ++ s.

End Py.
(* ===================================================================== *)
(** * Requests, responses and the remote service *)
(* ===================================================================== *)

Module Httpx.
Import Py.

(** What [response.json()] finds in the body: a JSON value, or text that
    does not parse (with the decoder's complaint). *)
Inductive body : Type :=
| Json (v : value)
| NotJson (why : string).

Record response : Type :=
  { status_code : Z; text : string; json : body }.

(** One call of [client.post(url, json=payload)] or
    [client.get(url, params=payload)]. *)
Record request : Type :=
  { method : string; url : string; payload : dict }.

(** An exception in flight.  [httpx.HTTPStatusError] carries the response
    it was raised for; the other classes carry their text, [str(e)]. *)
Inductive exn : Type :=
| HTTPStatusError (msg : string) (r : response)
| Exc (c : exc_class) (msg : string).

Definition exn_str (e : exn) : string :=
  match e with HTTPStatusError m _ => m | Exc _ m => m end.

(** [type(e).__name__] *)
Definition exn_name (e : exn) : string :=
  match e with HTTPStatusError _ _ => "HTTPStatusError" | Exc c _ => class_name c end.

(** How the remote end answers one request: a response, or a failure of
    the transport (an exception of class [c] out of [client.post]). *)
Inductive reply : Type :=
| Responded (r : response)
| Failed (c : exc_class) (msg : string).

(** The remote service: its answer to a request may depend on every
    request it has seen before. *)
Definition remote : Type := list request -> request -> reply.

End Httpx.

(* ===================================================================== *)
(** * Effects: configuration, request log, exceptions *)
(* ===================================================================== *)

Module Eff.
Import Py Httpx.

Record env : Type := { instance_url : string; service : remote }.

Inductive outcome (A : Type) : Type :=
| Return (a : A)
| Raised (e : exn).
Arguments Return {A} a.
Arguments Raised {A} e.

(** A computation reads the environment, appends to the log of requests
    sent so far, and returns or raises. *)
Definition M (A : Type) : Type := env -> list request -> outcome A * list request.

Definition ret {A} (a : A) : M A := fun _ log => (Return a, log).

Definition raise {A} (e : exn) : M A := fun _ log => (Raised e, log).

Definition bind {A B} (c : M A) (k : A -> M B) : M B :=
  fun ev log =>
    match c ev log with
    | (Return a, log') => k a ev log'
    | (Raised e, log') => (Raised e, log')
    end.

(** One [except] clause. *)
Inductive handler (A : Type) : Type :=
| on_HTTPStatusError (h : response -> M A)   (* except httpx.HTTPStatusError as e: uses e.response *)
| on (c : exc_class) (h : string -> M A)     (* except c as e: uses str(e) *)
| on_Exception (h : exn -> M A).             (* except Exception as e *)
Arguments on_HTTPStatusError {A} h.
Arguments on {A} c h.
Arguments on_Exception {A} h.

(** The first clause, in order, whose class the exception is an instance of. *)
Fixpoint dispatch {A} (hs : list (handler A)) (e : exn) : option (M A) :=
  match hs with
  | [] => None
  | h :: rest =>
      match h, e with
      | on_HTTPStatusError f, HTTPStatusError _ r => Some (f r)
      | on c f, Exc c' m => if issubclass c' c then Some (f m) else dispatch rest e
      | on_Exception f, _ => Some (f e)
      | _, _ => dispatch rest e
      end
  end.

(** [try: body except ...]: an exception raised by [body] goes to the
    first matching clause; one raised inside a clause leaves the statement. *)
Definition try_except {A} (body : M A) (hs : list (handler A)) : M A :=
  fun ev log =>
    match body ev log with
    | (Return a, log') => (Return a, log')
    | (Raised e, log') =>
        match dispatch hs e with
        | Some h => h ev log'
        | None => (Raised e, log')
        end
    end.

Definition SN_INSTANCE : M string := fun ev log => (Return (instance_url ev), log).

(** Send one request: it is logged, and the remote service answers. *)
Definition send (q : request) : M response :=
  fun ev log =>
    match service ev log q with
    | Responded r => (Return r, (log ++ [q])%list)
    | Failed c m => (Raised (Exc c m), (log ++ [q])%list)
    end.

Definition client_post (api_url : string) (json_payload : dict) : M response :=
  send {| method := "POST"; url := api_url; payload := json_payload |}.

Definition client_get (api_url : string) (params : dict) : M response :=
  send {| method := "GET"; url := api_url; payload := params |}.

(** [response.raise_for_status()]: returns on a 2xx status and raises
    [HTTPStatusError] on any other.  The exception text is never read by
    the module and is abbreviated here. *)
Definition raise_for_status (r : response) : M unit :=
  if (200 <=? status_code r) && (status_code r <=? 299) then ret tt
  else raise (HTTPStatusError ("HTTP status " ++ itoa (status_code r)) r).

(** [response.json()] *)
Definition response_json (r : response) : M value :=
  match json r with
  | Json v => ret v
  | NotJson why => raise (Exc JSONDecodeError why)
  end.

(** [v.get(k, default)]: only a mapping has the method. *)
Definition get (v : value) (k : string) (default : value) : M value :=
  match v with
  | VDict d => ret (dict_get d k default)
  | _ => raise (Exc AttributeError
                  ("'" ++ type_name v ++ "' object has no attribute 'get'"))
  end.

(** [v.lower()]: only a [str] has the method. *)
Definition get_lower (v : value) : M string :=
  match v with
  | VStr s => ret (lower s)
  | _ => raise (Exc AttributeError
                  ("'" ++ type_name v ++ "' object has no attribute 'lower'"))
  end.

(** [needle in v] *)
Definition py_in (needle : string) (v : value) : M bool :=
  match v with
  | VDict d => ret (has_key needle d)
  | VList l =>
      ret (existsb (fun x => match x with
                             | VStr s => String.eqb s needle
                             | _ => false
                             end) l)
  | VStr s => ret (contains s needle)
  | _ => raise (Exc TypeError
                  ("argument of type '" ++ type_name v ++ "' is not iterable"))
  end.

(** [v[k]] for a [str] subscript [k] *)
Definition subscript (v : value) (k : string) : M value :=
  match v with
  | VDict d =>
      match lookup k d with
      | Some x => ret x
      | None => raise (Exc KeyError (repr_str k))
      end
  | VList _ =>
      raise (Exc TypeError "list indices must be integers or slices, not str")
  | VStr _ =>
      raise (Exc TypeError "string indices must be integers, not 'str'")
  | _ => raise (Exc TypeError
                  ("'" ++ type_name v ++ "' object is not subscriptable"))
  end.

Fixpoint chars (s : string) : list value :=
  match s with
  | EmptyString => []
  | String c r => VStr (String c EmptyString) :: chars r
  end.

(** The items [for x in v] runs over. *)
Definition iterate (v : value) : M (list value) :=
  match v with
  | VList l => ret l
  | VDict d => ret (map (fun kv => VStr (fst kv)) d)
  | VStr s => ret (chars s)
  | _ => raise (Exc TypeError ("'" ++ type_name v ++ "' object is not iterable"))
  end.

(** [timedelta(seconds=n)] *)
Definition timedelta_seconds (n : Z) : M timedelta :=
  match timedelta_of_seconds n with
  | Some td => ret td
  | None =>
      let d := n / 86400 in
      raise (Exc OverflowError
               (if (d <? -2147483648) || (d >? 2147483647)
                then "Python int too large to convert to C int"
                else "days=" ++ itoa d ++ "; must have magnitude <= 999999999"))
  end.

(** A loop that appends one line per item to a list of lines. *)
Fixpoint for_each {X} (body : X -> M string) (items : list X) (acc : list string)
  : M (list string) :=
  match items with
  | [] => ret acc
  | x :: rest =>
      bind (body x) (fun line => for_each body rest (acc ++ [line])%list)
  end.

(** The same with [enumerate]: [idx] counts from [start]. *)
Fixpoint for_each_indexed {X} (body : Z -> X -> M string) (start : Z)
    (items : list X) (acc : list string) : M (list string) :=
  match items with
  | [] => ret acc
  | x :: rest =>
      bind (body start x)
           (fun line => for_each_indexed body (start + 1) rest (acc ++ [line])%list)
  end.

(** Run a tool against a service, from an empty request log. *)
Definition run {A} (c : M A) (ev : env) : outcome A * list request := c ev [].

Module Notations.
  Notation "x <- c ;; k" := (bind c (fun x => k))
    (at level 61, c at next level, right associativity).
  Notation "c ;; k" := (bind c (fun _ => k))
    (at level 61, right associativity).
End Notations.

End Eff.

Import Py Httpx Eff Eff.Notations.

(* ===================================================================== *)
(** * servicenow.py *)
(* ===================================================================== *)

(** ** ServiceNow API helper *)

Definition _make_servicenow_request
    (endpoint : string) (payload : dict) (method : string) : M value :=
  base <- SN_INSTANCE ;;
  let api_url := rstrip "/" base ++ "/" ++ endpoint in
  try_except
    (response <-
       (if String.eqb method "POST" then client_post api_url payload
        else if String.eqb method "GET" then client_get api_url payload
        else raise (Exc ValueError ("Unsupported HTTP method: " ++ method))) ;;
     raise_for_status response ;;
     if status_code response =? 204 then
       ret (VDict [("status", VStr "success");
                   ("message", VStr "Operation successful (No Content)")])
     else if status_code response =? 201 then
       parsed <- response_json response ;;
       get parsed "result"
           (VDict [("status", VStr "success"); ("message", VStr "Record created")])
     else
       parsed <- response_json response ;;
       get parsed "result" (VDict []))
    [ on_HTTPStatusError (fun e_response =>
        let error_details :=
          "HTTP Error: " ++ itoa (status_code e_response)
                         ++ " - " ++ text e_response in
        try_except
          (parsed <- response_json e_response ;;
           sn_error <- get parsed "error" (VDict []) ;;
           message <- get sn_error "message" (VStr "Unknown ServiceNow Error") ;;
           detail <- get sn_error "detail" (VStr (text e_response)) ;;
           raise (Exc ValueError
                    ("ServiceNow API Error: " ++ str message ++ " - " ++ str detail)))
          [ on JSONDecodeError (fun _ => raise (Exc ValueError error_details));
            on_Exception (fun inner_e => raise (Exc ValueError error_details)) ]);
      on RequestError (fun e =>
        let error_details := "Request Error: " ++ e in
        raise (Exc ValueError ("Could not connect to ServiceNow: " ++ error_details)));
      on_Exception (fun e =>
        let error_details :=
          "Unexpected error during ServiceNow request: "
            ++ exn_name e ++ " - " ++ exn_str e in
        raise (Exc ValueError error_details)) ].

(** ** ServiceNow GET helper *)

Definition sn_get (table : string) (limit : Z) : M value :=
  let endpoint := "api/now/table/" ++ table in
  let params := [("sysparm_limit", VInt limit);
                 ("sysparm_display_value", VStr "true")] in
  _make_servicenow_request endpoint params "GET".

(** ** Tool definitions *)

Definition nl : string := String "010" EmptyString.

Definition create_incident
    (short_description : string) (description caller_id urgency impact : option string)
  : M string :=
  let endpoint := "api/now/table/incident" in
  let payload :=
    [("short_description", VStr short_description);
     ("description", VStr (or_else description short_description));
     ("urgency", of_opt urgency);
     ("impact", of_opt impact)] in
  let payload :=
    if given caller_id then dict_set payload "caller_id" (of_opt caller_id)
    else payload in
  try_except
    (result <- _make_servicenow_request endpoint payload "POST" ;;
     incident_number <- get result "number" (VStr "UNKNOWN") ;;
     sys_id <- get result "sys_id" (VStr "UNKNOWN") ;;
     ret ("Successfully created incident " ++ str incident_number
            ++ " (Sys ID: " ++ str sys_id ++ ")."))
    [ on ValueError (fun e => ret ("Error creating incident: " ++ e)) ].

Definition create_kb_article
    (short_description article_body : string)
    (kb_knowledge_base workflow_state : option string) : M string :=
  let endpoint := "api/now/table/kb_knowledge" in
  let payload :=
    [("short_description", VStr short_description);
     ("text", VStr article_body);
     ("workflow_state", of_opt workflow_state);
     ("article_type", VStr "text")] in
  let payload :=
    if given kb_knowledge_base
    then dict_set payload "kb_knowledge_base" (of_opt kb_knowledge_base)
    else payload in
  try_except
    (result <- _make_servicenow_request endpoint payload "POST" ;;
     kb_number <- get result "number" (VStr "UNKNOWN") ;;
     sys_id <- get result "sys_id" (VStr "UNKNOWN") ;;
     ret ("Successfully created KB article " ++ str kb_number
            ++ " (Sys ID: " ++ str sys_id ++ ")."))
    [ on ValueError (fun e => ret ("Error creating KB article: " ++ e)) ].

Definition create_client_script
    (name table script ui_type script_type : string)
    (field_name : option string) (is_active : bool) : M string :=
  if String.eqb script_type "onChange" && negb (given field_name) then
    ret "Error: 'field_name' is required when script_type is 'onChange'."
  else
    let endpoint := "api/now/table/sys_script_client" in
    let payload :=
      [("name", VStr name);
       ("table", VStr table);
       ("script", VStr script);
       ("ui_type", VStr ui_type);
       ("type", VStr script_type);
       ("active", VStr (bool_lower is_active))] in
    let payload :=
      if given field_name then dict_set payload "field_name" (of_opt field_name)
      else payload in
    try_except
      (result <- _make_servicenow_request endpoint payload "POST" ;;
       script_name <- get result "name" (VStr name) ;;
       sys_id <- get result "sys_id" (VStr "UNKNOWN") ;;
       ret ("Successfully created Client Script '" ++ str script_name
              ++ "' (Sys ID: " ++ str sys_id ++ ")."))
      [ on ValueError (fun e => ret ("Error creating Client Script: " ++ e)) ].

Definition create_business_rule
    (name table script when : string) (order : Z)
    (action_insert action_update action_delete action_query is_active : bool)
  : M string :=
  let endpoint := "api/now/table/sys_script" in
  let payload :=
    [("name", VStr name);
     ("table", VStr table);
     ("script", VStr script);
     ("when", VStr when);
     ("order", VInt order);
     ("action_insert", VStr (bool_lower action_insert));
     ("action_update", VStr (bool_lower action_update));
     ("action_delete", VStr (bool_lower action_delete));
     ("action_query", VStr (bool_lower action_query));
     ("active", VStr (bool_lower is_active));
     ("collection", VStr table)] in
  try_except
    (result <- _make_servicenow_request endpoint payload "POST" ;;
     rule_name <- get result "name" (VStr name) ;;
     sys_id <- get result "sys_id" (VStr "UNKNOWN") ;;
     ret ("Successfully created Business Rule '" ++ str rule_name
            ++ "' (Sys ID: " ++ str sys_id ++ ")."))
    [ on ValueError (fun e => ret ("Error creating Business Rule: " ++ e)) ].

(** The [duration] field of an SLA definition:
    [f"1970-01-01 {str(td).split('.')[0].zfill(8)}"]. *)
Definition glide_duration (td : timedelta) : string :=
  "1970-01-01 " ++ zfill 8 (split_head "." (timedelta_str td)).

Definition create_sla_definition
    (name table : string) (duration_seconds : Z)
    (start_condition stop_condition pause_condition : option string) : M string :=
  let endpoint := "api/now/table/contract_sla" in
  td <- timedelta_seconds duration_seconds ;;
  let payload :=
    [("name", VStr name);
     ("target_table", VStr table);
     ("duration", VStr (glide_duration td));
     ("duration_type", VStr "glide_duration");
     ("type", VStr "SLA");
     ("active", VStr "true")] in
  let payload :=
    if given start_condition
    then dict_set payload "start_condition" (of_opt start_condition) else payload in
  let payload :=
    if given stop_condition
    then dict_set payload "stop_condition" (of_opt stop_condition) else payload in
  let payload :=
    if given pause_condition
    then dict_set payload "pause_condition" (of_opt pause_condition) else payload in
  try_except
    (result <- _make_servicenow_request endpoint payload "POST" ;;
     sla_name <- get result "name" (VStr name) ;;
     sys_id <- get result "sys_id" (VStr "UNKNOWN") ;;
     ret ("Successfully created SLA Definition '" ++ str sla_name
            ++ "' (Sys ID: " ++ str sys_id
            ++ "). Conditions should be verified in ServiceNow UI."))
    [ on ValueError (fun e => ret ("Error creating SLA Definition: " ++ e)) ].

(** [xs and len(xs) > 0], and [not xs], for an optional list argument *)
Definition nonempty {X} (xs : option (list X)) : bool :=
  match xs with Some (_ :: _) => true | _ => false end.

Definition items {X} (xs : option (list X)) : list X :=
  match xs with Some l => l | None => [] end.

Definition is_nil {X} (l : list X) : bool :=
  match l with [] => true | _ => false end.

Definition var_type_map : dict :=
  [("string", VStr "2");
   ("integer", VStr "9");
   ("boolean", VStr "6");
   ("reference", VStr "8");
   ("choice", VStr "3");
   ("text", VStr "1");
   ("date", VStr "5");
   ("datetime", VStr "4");
   ("currency", VStr "10");
   ("price", VStr "7")].

(** [var_def.get('name', f'variable_{idx}')] *)
Definition var_name (idx : Z) (var_def : dict) : value :=
  dict_get var_def "name" (VStr ("variable_" ++ itoa idx)).

(** The payload of one dependent variable, as built at the head of the
    loop body.  [parent_field] is ["cat_item"] in [create_record_producer]
    and ["variable_set"] in [create_variable_set]; the rest of the two
    loop bodies is the same text.  [.lower()] raises on a type that is
    not a [str]. *)
Definition build_var_payload
    (parent_field : string) (parent_sys_id : value) (idx : Z) (var_def : dict)
  : M dict :=
  type_key <- get_lower (dict_get var_def "type" (VStr "string")) ;;
  let var_payload :=
    [(parent_field, parent_sys_id);
     ("name", var_name idx var_def);
     ("question_text",
        dict_get var_def "label"
          (dict_get var_def "name" (VStr ("Variable " ++ itoa idx))));
     ("type", dict_get var_type_map type_key (VStr "2"));
     ("mandatory", VStr (lower (str (dict_get var_def "mandatory" (VBool false)))));
     ("order", VInt ((idx + 1) * 100));
     ("help_text", dict_get var_def "help_text" (VStr ""));
     ("description", dict_get var_def "description" (VStr ""))] in
  let var_payload :=
    if has_key "default_value" var_def
    then dict_set var_payload "default_value"
           (VStr (str (dict_get var_def "default_value" VNone)))
    else var_payload in
  ref_key <- get_lower (dict_get var_def "type" (VStr "")) ;;
  let var_payload :=
    if String.eqb ref_key "reference" && has_key "reference_table" var_def
    then dict_set var_payload "reference" (dict_get var_def "reference_table" VNone)
    else var_payload in
  ret var_payload.

(** One turn of the variable loop: build the payload, post it, report. *)
Definition add_variable
    (var_endpoint parent_field : string) (parent_sys_id : value)
    (idx : Z) (var_def : dict) : M string :=
  try_except
    (var_payload <- build_var_payload parent_field parent_sys_id idx var_def ;;
     var_result <- _make_servicenow_request var_endpoint var_payload "POST" ;;
     created <- get var_result "sys_id" VNone ;;
     if truthy created
     then ret ("Added variable '" ++ str (var_name idx var_def) ++ "'")
     else ret ("Failed to add variable '" ++ str (var_name idx var_def) ++ "'"))
    [ on ValueError (fun e =>
        ret ("Error adding variable '" ++ str (var_name idx var_def) ++ "': " ++ e)) ].

(** One turn of the variable-set loop of [create_record_producer]. *)
Definition add_variable_set (producer_sys_id : value) (set_id : string) : M string :=
  try_except
    (let set_endpoint := "api/now/table/io_set_item" in
     let set_payload :=
       [("sc_cat_item", producer_sys_id); ("variable_set", VStr set_id)] in
     set_result <- _make_servicenow_request set_endpoint set_payload "POST" ;;
     created <- get set_result "sys_id" VNone ;;
     if truthy created
     then ret ("Added variable set (ID: " ++ set_id ++ ")")
     else ret ("Failed to add variable set (ID: " ++ set_id ++ ")"))
    [ on ValueError (fun e =>
        ret ("Error adding variable set (ID: " ++ set_id ++ "): " ++ e)) ].

Definition create_record_producer
    (name table_name : string)
    (short_description category_sys_id script : option string)
    (variables : option (list dict)) (variable_set_ids : option (list string))
  : M string :=
  let endpoint := "api/now/table/sc_cat_item_producer" in
  let payload :=
    [("name", VStr name);
     ("table_name", VStr table_name);
     ("short_description", VStr (or_else short_description name));
     ("active", VStr "true");
     ("sys_class_name", VStr "sc_cat_item_producer")] in
  let payload :=
    if given category_sys_id
    then dict_set payload "category" (of_opt category_sys_id) else payload in
  let payload :=
    if given script then dict_set payload "script" (of_opt script) else payload in
  try_except
    (result <- _make_servicenow_request endpoint payload "POST" ;;
     producer_name <- get result "name" (VStr name) ;;
     producer_sys_id <- get result "sys_id" (VStr "") ;;
     if negb (truthy producer_sys_id) then
       ret "Error creating Record Producer: No sys_id returned from ServiceNow."
     else
       variable_set_messages <-
         (if nonempty variable_set_ids
          then for_each (add_variable_set producer_sys_id) (items variable_set_ids) []
          else ret []) ;;
       variable_messages <-
         (if nonempty variables
          then for_each_indexed
                 (add_variable "api/now/table/item_option_new" "cat_item"
                               producer_sys_id)
                 0 (items variables) []
          else ret []) ;;
       let message :=
         "Successfully created Record Producer '" ++ str producer_name
           ++ "' (Sys ID: " ++ str producer_sys_id ++ ")." in
       let message :=
         if negb (is_nil variable_set_messages)
         then message ++ nl ++ "Variable Sets: " ++ join "; " variable_set_messages
         else message in
       let message :=
         if negb (is_nil variable_messages)
         then message ++ nl ++ "Variables: " ++ join "; " variable_messages
         else if is_nil variable_set_messages && negb (nonempty variables)
         then message ++ " No variables were added."
         else message in
       ret message)
    [ on ValueError (fun e => ret ("Error creating Record Producer: " ++ e)) ].

Definition create_variable_set
    (name : string) (description : option string) (variables : option (list dict))
  : M string :=
  let endpoint := "api/now/table/io_set" in
  let payload :=
    [("name", VStr name);
     ("description", VStr (or_else description name));
     ("active", VStr "true")] in
  try_except
    (result <- _make_servicenow_request endpoint payload "POST" ;;
     set_name <- get result "name" (VStr name) ;;
     set_sys_id <- get result "sys_id" (VStr "") ;;
     if negb (truthy set_sys_id) then
       ret "Error creating Variable Set: No sys_id returned from ServiceNow."
     else
       variable_messages <-
         (if nonempty variables
          then for_each_indexed
                 (add_variable "api/now/table/io_set_variable" "variable_set"
                               set_sys_id)
                 0 (items variables) []
          else ret []) ;;
       let message :=
         "Successfully created Variable Set '" ++ str set_name
           ++ "' (Sys ID: " ++ str set_sys_id ++ ")." in
       let message :=
         if negb (is_nil variable_messages)
         then message ++ nl ++ "Variables: " ++ join "; " variable_messages
         else message ++ " No variables were added." in
       ret message)
    [ on ValueError (fun e => ret ("Error creating Variable Set: " ++ e)) ].

(** [limit] after [if limit > 100: limit = 100] *)
Definition clamp_limit (limit : Z) : Z := if limit >? 100 then 100 else limit.

Definition bullet : string := "•".

Definition get_incidents (limit : Z) : M string :=
  try_except
    (let limit := clamp_limit limit in
     result <- sn_get "incident" limit ;;
     absent <- (if negb (truthy result) then ret true
                else (found <- py_in "result" result ;; ret (negb found))) ;;
     if absent then
       ret "No incidents found or error retrieving incidents."
     else
       incidents <- subscript result "result" ;;
       if negb (truthy incidents) then ret "No incidents found."
       else
         rows <- iterate incidents ;;
         formatted_incidents <-
           for_each (fun incident =>
             number <- get incident "number" (VStr "N/A") ;;
             short_description <- get incident "short_description" (VStr "No description") ;;
             state <- get incident "state" (VStr "N/A") ;;
             priority <- get incident "priority" (VStr "N/A") ;;
             ret (bullet ++ " " ++ str number ++ ": " ++ str short_description
                    ++ " (State: " ++ str state
                    ++ ", Priority: " ++ str priority ++ ")")) rows [] ;;
         ret ("Retrieved " ++ itoa (Z.of_nat (List.length rows)) ++ " incidents:" ++ nl
                ++ join nl formatted_incidents))
    [ on ValueError (fun e => ret ("Error retrieving incidents: " ++ e)) ].

Definition get_change_requests (limit : Z) : M string :=
  try_except
    (let limit := clamp_limit limit in
     result <- sn_get "change_request" limit ;;
     absent <- (if negb (truthy result) then ret true
                else (found <- py_in "result" result ;; ret (negb found))) ;;
     if absent then
       ret "No change requests found or error retrieving change requests."
     else
       changes <- subscript result "result" ;;
       if negb (truthy changes) then ret "No change requests found."
       else
         rows <- iterate changes ;;
         formatted_changes <-
           for_each (fun change =>
             number <- get change "number" (VStr "N/A") ;;
             short_description <- get change "short_description" (VStr "No description") ;;
             state <- get change "state" (VStr "N/A") ;;
             risk <- get change "risk" (VStr "N/A") ;;
             ret (bullet ++ " " ++ str number ++ ": " ++ str short_description
                    ++ " (State: " ++ str state
                    ++ ", Risk: " ++ str risk ++ ")")) rows [] ;;
         ret ("Retrieved " ++ itoa (Z.of_nat (List.length rows)) ++ " change requests:" ++ nl
                ++ join nl formatted_changes))
    [ on ValueError (fun e => ret ("Error retrieving change requests: " ++ e)) ].

Definition get_users (limit : Z) : M string :=
  try_except
    (let limit := clamp_limit limit in
     result <- sn_get "sys_user" limit ;;
     absent <- (if negb (truthy result) then ret true
                else (found <- py_in "result" result ;; ret (negb found))) ;;
     if absent then
       ret "No users found or error retrieving users."
     else
       users <- subscript result "result" ;;
       if negb (truthy users) then ret "No users found."
       else
         rows <- iterate users ;;
         formatted_users <-
           for_each (fun user =>
             user_name <- get user "user_name" (VStr "N/A") ;;
             name <- get user "name" (VStr "No name") ;;
             email <- get user "email" (VStr "N/A") ;;
             active <- get user "active" (VStr "N/A") ;;
             ret (bullet ++ " " ++ str user_name ++ ": " ++ str name
                    ++ " (Email: " ++ str email
                    ++ ", Active: " ++ str active ++ ")")) rows [] ;;
         ret ("Retrieved " ++ itoa (Z.of_nat (List.length rows)) ++ " users:" ++ nl
                ++ join nl formatted_users))
    [ on ValueError (fun e => ret ("Error retrieving users: " ++ e)) ].

(* ===================================================================== *)
(** * Vocabulary of the properties *)
(* ===================================================================== *)

(** A computation that sends nothing. *)
Definition silent {A} (c : M A) : Prop := forall ev log, snd (c ev log) = log.

Definition silent_handlers {A} (hs : list (handler A)) : Prop :=
  forall e h, dispatch hs e = Some h -> silent h.

(** The request the helper sends for [endpoint] and [payload]. *)
Definition request_for (ev : env) (meth endpoint : string) (p : dict) : request :=
  {| method := meth;
     url := rstrip "/" (instance_url ev) ++ "/" ++ endpoint;
     payload := p |}.

Definition occurs_in (needle hay : string) : Prop :=
  exists pre post, hay = pre ++ needle ++ post.

(** [json.dumps] and [str] refuse an [int] of more than 4300 digits. *)
Definition int_digits_limit : Z := 10 ^ 4300.

(** A value holding no such [int], at any depth. *)
Fixpoint json_safe (v : value) : bool :=
  match v with
  | VInt n => Z.abs n <? int_digits_limit
  | VList l => forallb json_safe l
  | VDict d => forallb (fun kv => let '(_, x) := kv in json_safe x) d
  | _ => true
  end.

(** The helper keeps its declared return type: every result is a mapping. *)
Definition results_are_mappings (ev : env) : Prop :=
  forall endpoint p meth log v,
    fst (_make_servicenow_request endpoint p meth ev log) = Return v ->
    exists d, v = VDict d.

(** The type name a variable definition declares, if it declares one. *)
Definition declared_type (var_def : dict) : option string :=
  match lookup "type" var_def with
  | Some (VStr s) => Some s
  | _ => None
  end.

(** A definition whose [type], when present, is a name (a [str]). *)
Definition type_is_name (var_def : dict) : Prop :=
  lookup "type" var_def = None \/ exists s, lookup "type" var_def = Some (VStr s).

Definition type_names : list string :=
  ["string"; "integer"; "boolean"; "reference"; "choice";
   "text"; "date"; "datetime"; "currency"; "price"].

(** The table in the specification's words: the code of a type name,
    compared without regard to case; the string code for a name that is
    not in the table or not given. *)
Definition spec_type_code (type_name : option string) : string :=
  match type_name with
  | None => "2"
  | Some s =>
      let k := lower s in
      if String.eqb k "string" then "2"
      else if String.eqb k "integer" then "9"
      else if String.eqb k "boolean" then "6"
      else if String.eqb k "reference" then "8"
      else if String.eqb k "choice" then "3"
      else if String.eqb k "text" then "1"
      else if String.eqb k "date" then "5"
      else if String.eqb k "datetime" then "4"
      else if String.eqb k "currency" then "10"
      else if String.eqb k "price" then "7"
      else "2"
  end.

(** The request sent for one variable definition: a POST to [endpoint]
    whose [type] field is the table's code for the declared type name. *)
Definition variable_request (ev : env) (endpoint : string)
    (var_def : dict) (q : request) : Prop :=
  q = request_for ev "POST" endpoint (payload q)
  /\ type_is_name var_def
  /\ lookup "type" (payload q) = Some (VStr (spec_type_code (declared_type var_def))).

(** A dependent creation succeeds when the helper, called at this point
    of the log, returns a mapping with a non-empty [sys_id]. *)
Definition creation_succeeds (ev : env) (log : list request)
    (endpoint : string) (p : dict) : bool :=
  match fst (_make_servicenow_request endpoint p "POST" ev log) with
  | Return (VDict d) => truthy (dict_get d "sys_id" VNone)
  | _ => false
  end.

(** The line reported for variable [idx]: the success marker when its
    creation succeeded, one of the two failure markers when it did not. *)
Definition variable_line (idx : Z) (var_def : dict) (ok : bool) (line : string) : Prop :=
  let shown := str (var_name idx var_def) in
  if ok then line = "Added variable '" ++ shown ++ "'"
  else line = "Failed to add variable '" ++ shown ++ "'"
       \/ exists e, line = "Error adding variable '" ++ shown ++ "': " ++ e.

Definition variable_set_line (set_id : string) (ok : bool) (line : string) : Prop :=
  if ok then line = "Added variable set (ID: " ++ set_id ++ ")"
  else line = "Failed to add variable set (ID: " ++ set_id ++ ")"
       \/ exists e, line = "Error adding variable set (ID: " ++ set_id ++ "): " ++ e.

(** Item by item: each definition has its own request [q], sent after
    those of the items before it, and its own line, which depends on the
    outcome of that request alone. *)
Fixpoint variable_lines (ev : env) (endpoint : string) (log : list request)
    (idx : Z) (defs : list dict) (qs : list request) (lines : list string) : Prop :=
  match defs, qs, lines with
  | [], [], [] => True
  | var_def :: defs', q :: qs', line :: lines' =>
      q = request_for ev "POST" endpoint (payload q)
      /\ variable_line idx var_def (creation_succeeds ev log endpoint (payload q)) line
      /\ variable_lines ev endpoint (log ++ [q]) (idx + 1) defs' qs' lines'
  | _, _, _ => False
  end.

Fixpoint variable_set_lines (ev : env) (log : list request)
    (ids : list string) (qs : list request) (lines : list string) : Prop :=
  match ids, qs, lines with
  | [], [], [] => True
  | set_id :: ids', q :: qs', line :: lines' =>
      q = request_for ev "POST" "api/now/table/io_set_item" (payload q)
      /\ variable_set_line set_id
           (creation_succeeds ev log "api/now/table/io_set_item" (payload q)) line
      /\ variable_set_lines ev (log ++ [q]) ids' qs' lines'
  | _, _, _ => False
  end.

Definition digit (d : Z) : ascii := ascii_of_N (48 + Z.to_N d).

Definition two_digits (n : Z) : string :=
  String (digit (n / 10)) (String (digit (n mod 10)) EmptyString).

(** [HH:MM:SS] for a count of seconds. *)
Definition clock (n : Z) : string :=
  two_digits (n / 3600) ++ ":" ++ two_digits (n / 60 mod 60)
    ++ ":" ++ two_digits (n mod 60).

(** What one variable's request carries besides its type: the parent's
    [sys_id] under [parent_field], the display order, the name. *)
Definition variable_payload (ev : env) (endpoint parent_field : string)
    (sid : value) (idx : Z) (var_def : dict) (q : request) : Prop :=
  q = request_for ev "POST" endpoint (payload q)
  /\ lookup parent_field (payload q) = Some sid
  /\ lookup "order" (payload q) = Some (VInt ((idx + 1) * 100))
  /\ lookup "name" (payload q) = Some (var_name idx var_def).

(** The attachment of variable set [set_id] to the producer [sid]. *)
Definition attachment (ev : env) (sid : value) (set_id : string) : request :=
  request_for ev "POST" "api/now/table/io_set_item"
    [("sc_cat_item", sid); ("variable_set", VStr set_id)].

(** An optional text argument as it appears in a payload: left out when
    [None] or empty. *)
Definition sent_if_given (o : option string) : option value :=
  match o with
  | Some s => if String.eqb s "" then None else Some (VStr s)
  | None => None
  end.

(* ===================================================================== *)
(** * Example services *)
(* ===================================================================== *)

(** Remote ends used to run the tools on concrete inputs.  The module
    reads [text] on error statuses only; it is left empty elsewhere. *)

Definition dq : string := String "034" EmptyString.

(** The text of the body [{"error": {"message": "M", "detail": "D"}}]. *)
Definition error_body_text : string :=
  "{" ++ dq ++ "error" ++ dq ++ ": {" ++ dq ++ "message" ++ dq ++ ": "
      ++ dq ++ "M" ++ dq ++ ", " ++ dq ++ "detail" ++ dq ++ ": "
      ++ dq ++ "D" ++ dq ++ "}}".

Definition error_response : response :=
  {| status_code := 400;
     text := error_body_text;
     json := Json (VDict [("error", VDict [("message", VStr "M");
                                           ("detail", VStr "D")])]) |}.

(** Every request is refused with status 400. *)
Definition rejecting : env :=
  {| instance_url := "https://dev.example.com/";
     service := fun _ _ => Responded error_response |}.

(** Every request is answered 201 with a [number] and no [sys_id]. *)
Definition numbered_only : env :=
  {| instance_url := "https://dev.example.com";
     service := fun _ _ =>
       Responded {| status_code := 201;
                    text := "";
                    json := Json (VDict [("result",
                                   VDict [("number", VStr "INC0010001")])]) |} |}.

Definition created_response : response :=
  {| status_code := 201;
     text := "";
     json := Json (VDict [("result",
                     VDict [("number", VStr "REC0010001");
                            ("sys_id", VStr "46d44a5dc0a8010e")])]) |}.

(** Every request is answered 201 with a [number] and a [sys_id]. *)
Definition accepting : env :=
  {| instance_url := "https://dev.example.com";
     service := fun _ _ => Responded created_response |}.

(** Every request is answered 201 with a list under [result]. *)
Definition listless : env :=
  {| instance_url := "https://dev.example.com";
     service := fun _ _ =>
       Responded {| status_code := 201;
                    text := "";
                    json := Json (VDict [("result", VList [])]) |} |}.

Definition laptop_response : response :=
  {| status_code := 201;
     text := "";
     json := Json (VDict [("result",
                     VDict [("name", VStr "Request laptop");
                            ("sys_id", VStr "46d44a5dc0a8010e")])]) |}.

(** A remote end whose third answer is a refused connection. *)
Definition flaky : env :=
  {| instance_url := "https://dev.example.com";
     service := fun log _ =>
       match log with
       | [_; _] => Failed RequestError "All connection attempts failed"
       | _ => Responded laptop_response
       end |}.

(** A remote end whose second answer, the one to the first dependent
    request, is a 201 with a list under [result]. *)
Definition half_listless : env :=
  {| instance_url := "https://dev.example.com";
     service := fun log _ =>
       match log with
       | [_] => Responded {| status_code := 201;
                             text := "";
                             json := Json (VDict [("result", VList [])]) |}
       | _ => Responded laptop_response
       end |}.

(** Two definitions, the first with [type] given as [None]. *)
Definition null_typed_variables : option (list dict) :=
  Some [[("name", VStr "model"); ("type", VNone)];
        [("name", VStr "colour"); ("type", VStr "choice")]].

(** Three definitions: a type in mixed case, an unknown type, no type. *)
Definition typed_variables : option (list dict) :=
  Some [[("name", VStr "urgent"); ("type", VStr "Boolean")];
        [("name", VStr "model"); ("type", VStr "unknown_type")];
        [("name", VStr "notes")]].

Definition two_variables : option (list dict) :=
  Some [[("name", VStr "model"); ("type", VStr "string")];
        [("name", VStr "colour"); ("type", VStr "choice")]].

(** A remote end that cannot be reached. *)
Definition unreachable : env :=
  {| instance_url := "https://dev.example.com";
     service := fun _ _ => Failed RequestError "All connection attempts failed" |}.

(** Every request is answered 204, with an empty body. *)
Definition no_content : env :=
  {| instance_url := "https://dev.example.com";
     service := fun _ _ =>
       Responded {| status_code := 204;
                    text := "";
                    json := NotJson "Expecting value: line 1 column 1 (char 0)" |} |}.

(** Every request is answered 200 with a page that is not JSON. *)
Definition login_page : env :=
  {| instance_url := "https://dev.example.com";
     service := fun _ _ =>
       Responded {| status_code := 200;
                    text := "<html>Sign in</html>";
                    json := NotJson "Expecting value: line 1 column 1 (char 0)" |} |}.

(** Every request is answered 201 with an empty JSON object. *)
Definition bare_created : env :=
  {| instance_url := "https://dev.example.com";
     service := fun _ _ =>
       Responded {| status_code := 201; text := "{}"; json := Json (VDict []) |} |}.

Definition two_incidents : list dict :=
  [[("number", VStr "INC0010001"); ("short_description", VStr "Printer down");
    ("state", VStr "New"); ("priority", VStr "3 - Moderate")];
   [("number", VStr "INC0010002")]].

(** A remote end that answers every request the way the Table API lists. *)
Definition listing : env :=
  {| instance_url := "https://dev.example.com";
     service := fun _ _ =>
       Responded {| status_code := 200;
                    text := "";
                    json := Json (VDict [("result",
                                          VList (map VDict two_incidents))]) |} |}.

(** A remote end whose records sit one level deeper, under a second
    [result] key: the shape the listing tools can format. *)
Definition nested_listing : env :=
  {| instance_url := "https://dev.example.com";
     service := fun _ _ =>
       Responded {| status_code := 200;
                    text := "";
                    json := Json (VDict [("result",
                              VDict [("result",
                                      VList (map VDict two_incidents))])]) |} |}.

(* ===================================================================== *)
(** * Properties *)
(* ===================================================================== *)

(** ** Log discipline *)

Lemma silent_ret {A} (a : A) : silent (ret a).
Proof. intros ev log; reflexivity. Qed.

Lemma silent_raise {A} (e : exn) : silent (@raise A e).
Proof. intros ev log; reflexivity. Qed.

Lemma silent_bind {A B} (c : M A) (k : A -> M B) :
  silent c -> (forall a, silent (k a)) -> silent (bind c k).
Proof.
  intros Hc Hk ev log. unfold bind.
  specialize (Hc ev log). destruct (c ev log) as [[a|e] log']; simpl in *; subst.
  - apply Hk.
  - reflexivity.
Qed.

Lemma silent_try {A} (body : M A) (hs : list (handler A)) :
  silent body -> silent_handlers hs -> silent (try_except body hs).
Proof.
  intros Hb Hh ev log. unfold try_except.
  specialize (Hb ev log). destruct (body ev log) as [[a|e] log']; simpl in *; subst.
  - reflexivity.
  - destruct (dispatch hs e) as [h|] eqn:D; [exact (Hh e h D ev log) | reflexivity].
Qed.

Lemma silent_get v k d : silent (get v k d).
Proof. destruct v; intros ev log; reflexivity. Qed.

Lemma silent_get_lower v : silent (get_lower v).
Proof. destruct v; intros ev log; reflexivity. Qed.

Lemma silent_response_json r : silent (response_json r).
Proof. unfold response_json; destruct (json r); intros ev log; reflexivity. Qed.

Lemma silent_raise_for_status r : silent (raise_for_status r).
Proof.
  unfold raise_for_status.
  destruct ((200 <=? status_code r) && (status_code r <=? 299));
    intros ev log; reflexivity.
Qed.

(** Sending nothing after [c] leaves the log as [c] left it. *)
Lemma bind_silent_log {A B} (c : M A) (k : A -> M B) ev log :
  (forall a, silent (k a)) -> snd (bind c k ev log) = snd (c ev log).
Proof.
  intros Hk. unfold bind. destruct (c ev log) as [[a|e] log']; simpl.
  - apply Hk.
  - reflexivity.
Qed.

Lemma try_silent_log {A} (body : M A) (hs : list (handler A)) ev log :
  silent_handlers hs -> snd (try_except body hs ev log) = snd (body ev log).
Proof.
  intros Hh. unfold try_except. destruct (body ev log) as [[a|e] log']; simpl.
  - reflexivity.
  - destruct (dispatch hs e) as [h|] eqn:D; [exact (Hh e h D ev log') | reflexivity].
Qed.

(** Clauses that all end in [raise] or [return] of a text are silent. *)
Lemma silent_on_ret (c : exc_class) (f : string -> string) :
  silent_handlers [on c (fun e => ret (f e))].
Proof.
  intros e h D. simpl in D. destruct e as [m r|c' m]; try discriminate.
  destruct (issubclass c' c); inversion D; subst. apply silent_ret.
Qed.

(** ** The transport helper *)

(** What the helper makes of an error response, whatever its body. *)
Lemma status_error_clause (r : response) ev log :
  try_except
    (parsed <- response_json r ;;
     sn_error <- get parsed "error" (VDict []) ;;
     message <- get sn_error "message" (VStr "Unknown ServiceNow Error") ;;
     detail <- get sn_error "detail" (VStr (text r)) ;;
     raise (Exc ValueError
              ("ServiceNow API Error: " ++ str message ++ " - " ++ str detail)))
    [ on JSONDecodeError (fun _ =>
        raise (Exc ValueError
                 ("HTTP Error: " ++ itoa (status_code r) ++ " - " ++ text r)));
      on_Exception (fun inner_e =>
        raise (Exc ValueError
                 ("HTTP Error: " ++ itoa (status_code r) ++ " - " ++ text r))) ]
    ev log
  = (@Raised value
       (Exc ValueError ("HTTP Error: " ++ itoa (status_code r) ++ " - " ++ text r)),
     log).
Proof.
  unfold try_except, bind, response_json.
  destruct (json r) as [v|why]; [|reflexivity].
  destruct v as [| | | | |d]; try reflexivity.
  cbn [get ret].
  destruct (dict_get d "error" (VDict [])); reflexivity.
Qed.

Lemma helper_log (endpoint : string) (p : dict) (meth : string) ev log :
  meth = "POST" \/ meth = "GET" ->
  snd (_make_servicenow_request endpoint p meth ev log)
  = (log ++ [request_for ev meth endpoint p])%list.
Proof.
  intros Hm. unfold _make_servicenow_request.
  unfold bind at 1. cbn [SN_INSTANCE].
  rewrite try_silent_log.
  - rewrite bind_silent_log.
    + destruct Hm as [-> | ->]; cbn [String.eqb Ascii.eqb Bool.eqb];
        unfold client_post, client_get, send, request_for;
        destruct (service ev log _); reflexivity.
    + intros r. apply silent_bind; [apply silent_raise_for_status|].
      intros _. destruct (status_code r =? 204); [apply silent_ret|].
      destruct (status_code r =? 201);
        (apply silent_bind; [apply silent_response_json | intros; apply silent_get]).
  - intros e h D. cbn [dispatch] in D.
    destruct e as [m r|c m].
    + inversion D; subst. intros ev' log'. rewrite status_error_clause. reflexivity.
    + destruct (issubclass c RequestError); inversion D; subst; apply silent_raise.
Qed.

(** Whatever goes wrong inside the helper leaves it as a [ValueError]. *)
Lemma helper_raises_ValueError (endpoint : string) (p : dict) (meth : string) ev log e :
  fst (_make_servicenow_request endpoint p meth ev log) = Raised e ->
  exists msg, e = Exc ValueError msg.
Proof.
  unfold _make_servicenow_request.
  unfold bind at 1. cbn [SN_INSTANCE].
  unfold try_except at 1.
  match goal with |- context [match ?b ev log with _ => _ end] =>
    destruct (b ev log) as [[v|e0] log'] end.
  - discriminate.
  - cbn [dispatch]. destruct e0 as [m r|c m].
    + rewrite status_error_clause. cbn. intros H; inversion H; eauto.
    + destruct (issubclass c RequestError); cbn; intros H; inversion H; eauto.
Qed.

(** The helper on an error status: the text raised is the raw status and
    body, also when the body is JSON with an [error] object. *)
Lemma helper_error_status (endpoint : string) (p : dict) (meth : string)
      ev log (r : response) :
  meth = "POST" \/ meth = "GET" ->
  service ev log (request_for ev meth endpoint p) = Responded r ->
  400 <= status_code r <= 599 ->
  _make_servicenow_request endpoint p meth ev log
  = (Raised (Exc ValueError
               ("HTTP Error: " ++ itoa (status_code r) ++ " - " ++ text r)),
     (log ++ [request_for ev meth endpoint p])%list).
Proof.
  intros Hm Hs Hr. unfold _make_servicenow_request.
  unfold bind at 1. cbn [SN_INSTANCE].
  unfold try_except at 1, bind at 1.
  assert (Hsend :
    (if String.eqb meth "POST"
     then client_post (rstrip "/" (instance_url ev) ++ "/" ++ endpoint) p
     else if String.eqb meth "GET"
          then client_get (rstrip "/" (instance_url ev) ++ "/" ++ endpoint) p
          else raise (Exc ValueError ("Unsupported HTTP method: " ++ meth))) ev log
    = (Return r, (log ++ [request_for ev meth endpoint p])%list)).
  { destruct Hm as [-> | ->]; cbn [String.eqb Ascii.eqb Bool.eqb];
      unfold client_post, client_get, send; unfold request_for in Hs;
      rewrite Hs; reflexivity. }
  rewrite Hsend.
  unfold bind at 1, raise_for_status.
  replace ((200 <=? status_code r) && (status_code r <=? 299)) with false
    by (symmetry; apply andb_false_iff; right; apply Z.leb_gt; lia).
  cbn [raise dispatch]. apply status_error_clause.
Qed.

(** The helper on a 201 response whose JSON body has a [result]. *)
Lemma helper_created (endpoint : string) (p : dict) ev log (r : response) body res :
  service ev log (request_for ev "POST" endpoint p) = Responded r ->
  status_code r = 201 ->
  json r = Json (VDict body) ->
  lookup "result" body = Some res ->
  _make_servicenow_request endpoint p "POST" ev log
  = (Return res, (log ++ [request_for ev "POST" endpoint p])%list).
Proof.
  intros Hs Hc Hj Hl. unfold _make_servicenow_request.
  unfold bind at 1. cbn [SN_INSTANCE].
  unfold try_except at 1, bind at 1.
  cbn [String.eqb Ascii.eqb Bool.eqb]. unfold client_post, send.
  fold (request_for ev "POST" endpoint p). rewrite Hs.
  unfold bind, raise_for_status, response_json. rewrite Hc, Hj. cbn.
  unfold dict_get. rewrite Hl. reflexivity.
Qed.

(** ** Occurrence of one text in another *)

Lemma prefix_append (s t : string) : String.prefix s (s ++ t) = true.
Proof.
  induction s as [|c s IH]; simpl.
  - destruct t; reflexivity.
  - destruct (ascii_dec c c); [exact IH | congruence].
Qed.

Lemma contains_unfold (hay needle : string) :
  contains hay needle
  = String.prefix needle hay
    || match hay with EmptyString => false | String _ r => contains r needle end.
Proof. destruct hay; reflexivity. Qed.

Lemma contains_complete (needle hay : string) :
  occurs_in needle hay -> contains hay needle = true.
Proof.
  intros (pre & post & ->). induction pre as [|c pre IH].
  - rewrite contains_unfold. simpl append. now rewrite prefix_append.
  - rewrite contains_unfold.
    change (String c pre ++ needle ++ post) with (String c (pre ++ needle ++ post)).
    cbv iota. rewrite IH. apply orb_true_r.
Qed.

Lemma occurs_in_mid (a needle b : string) : occurs_in needle (a ++ needle ++ b).
Proof. exists a, b. reflexivity. Qed.

Lemma append_assoc (a b c : string) : (a ++ b) ++ c = a ++ b ++ c.
Proof. induction a as [|x a IH]; simpl; [reflexivity | now rewrite IH]. Qed.

Lemma occurs_in_append_r (needle a b : string) :
  occurs_in needle b -> occurs_in needle (a ++ b).
Proof.
  intros (pre & post & ->). exists (a ++ pre), post. now rewrite append_assoc.
Qed.

Lemma occurs_in_append_l (needle a b : string) :
  occurs_in needle a -> occurs_in needle (a ++ b).
Proof.
  intros (pre & post & ->). exists pre, (post ++ b).
  now rewrite !append_assoc.
Qed.

Lemma occurs_in_head (needle b : string) : occurs_in needle (needle ++ b).
Proof. exists "", b. reflexivity. Qed.

Lemma occurs_in_cons (needle : string) (c : ascii) (s : string) :
  occurs_in needle s -> occurs_in needle (String c s).
Proof. intros (pre & post & ->). exists (String c pre), post. reflexivity. Qed.

Ltac occurs :=
  first [ apply occurs_in_mid
        | apply occurs_in_head
        | apply occurs_in_cons; occurs
        | apply occurs_in_append_r; occurs
        | apply occurs_in_append_l; occurs ].

(** ** The tool boundary *)

(** The shape shared by the five single-call creation tools: call the
    helper, read two fields of its result, format; a [ValueError] becomes
    an error line, anything else passes through. *)
Lemma simple_tool_run (c : M value) k1 d1 k2 d2
      (f : value -> value -> string) (g : string -> string) ev log :
  try_except
    (result <- c ;;
     a <- get result k1 d1 ;;
     b <- get result k2 d2 ;;
     ret (f a b))
    [ on ValueError (fun e => ret (g e)) ] ev log
  = match c ev log with
    | (Return (VDict d), log') =>
        (Return (f (dict_get d k1 d1) (dict_get d k2 d2)), log')
    | (Return v, log') =>
        (Raised (Exc AttributeError
                   ("'" ++ type_name v ++ "' object has no attribute 'get'")), log')
    | (Raised (Exc cls m), log') =>
        if issubclass cls ValueError then (Return (g m), log')
        else (Raised (Exc cls m), log')
    | (Raised e, log') => (Raised e, log')
    end.
Proof.
  unfold try_except, bind.
  destruct (c ev log) as [[v|e] log'].
  - destruct v; reflexivity.
  - destruct e as [m r|cls m]; cbn [dispatch]; [reflexivity|].
    destruct (issubclass cls ValueError); reflexivity.
Qed.

Lemma silent_py_in k v : silent (py_in k v).
Proof. destruct v; intros ev log; reflexivity. Qed.

Lemma silent_subscript v k : silent (subscript v k).
Proof.
  destruct v; try (intros ev log; reflexivity).
  unfold subscript. destruct (lookup k d); intros ev log; reflexivity.
Qed.

Lemma silent_iterate v : silent (iterate v).
Proof. destruct v; intros ev log; reflexivity. Qed.

Lemma silent_for_each {X} (body : X -> M string) (l : list X) :
  (forall x, silent (body x)) -> forall acc, silent (for_each body l acc).
Proof.
  intros Hb. induction l as [|x l IH]; intros acc; simpl.
  - apply silent_ret.
  - apply silent_bind; [apply Hb | intros; apply IH].
Qed.

Ltac silence :=
  repeat first
    [ apply silent_ret | apply silent_raise | apply silent_get
    | apply silent_get_lower | apply silent_py_in | apply silent_subscript
    | apply silent_iterate | apply silent_response_json
    | apply silent_raise_for_status
    | apply silent_for_each; intros
    | apply silent_bind; [| intros]
    | match goal with
      | |- silent (if ?b then _ else _) => destruct b
      end ].

Lemma clamp_limit_min (limit : Z) : clamp_limit limit = Z.min limit 100.
Proof. unfold clamp_limit. destruct (Z.gtb_spec limit 100); lia. Qed.

(** A listing tool sends the one GET of [sn_get], with the clamped limit. *)
Lemma sn_get_log (table : string) (limit : Z) ev log :
  snd (sn_get table (clamp_limit limit) ev log)
  = (log ++ [request_for ev "GET" ("api/now/table/" ++ table)
               [("sysparm_limit", VInt (Z.min limit 100));
                ("sysparm_display_value", VStr "true")]])%list.
Proof.
  unfold sn_get. rewrite helper_log by (right; reflexivity).
  now rewrite clamp_limit_min.
Qed.

(* --------------------------------------------------------------------- *)
(** ** C1: error responses *)
(* --------------------------------------------------------------------- *)

(** C1 (the code departs from the claim).  On every 4xx/5xx response the
    helper raises a [ValueError], the module's one typed error, but its
    text is always the raw status and body text: the message assembled
    from the [error] object's [message] and [detail] is raised inside the
    inner [try] and replaced by its own [except Exception] clause. *)
Theorem C1_error_status_raises_raw_status_and_body
    (endpoint : string) (p : dict) (meth : string) ev log (r : response) :
  meth = "POST" \/ meth = "GET" ->
  service ev log (request_for ev meth endpoint p) = Responded r ->
  400 <= status_code r <= 599 ->
  fst (_make_servicenow_request endpoint p meth ev log)
  = Raised (Exc ValueError
              ("HTTP Error: " ++ itoa (status_code r) ++ " - " ++ text r)).
Proof.
  intros Hm Hs Hr. now rewrite (helper_error_status endpoint p meth ev log r).
Qed.

Lemma C1_error_object_witness :
  fst (run (_make_servicenow_request "api/now/table/incident" [] "POST") rejecting)
  = Raised (Exc ValueError ("HTTP Error: 400 - " ++ error_body_text)).
Proof.
  apply (C1_error_status_raises_raw_status_and_body
           "api/now/table/incident" [] "POST" rejecting [] error_response).
  - left; reflexivity.
  - reflexivity.
  - simpl; lia.
Defined.

(** The text the claim expects at that input is not the one raised. *)
Example error_object_fields_unused :
  fst (run (_make_servicenow_request "api/now/table/incident" [] "POST") rejecting)
  <> Raised (Exc ValueError "ServiceNow API Error: M - D").
Proof. vm_compute. discriminate. Qed.

(* --------------------------------------------------------------------- *)
(** ** C7: validation before any call *)
(* --------------------------------------------------------------------- *)

(** C7.  [create_client_script] with [script_type="onChange"] and a
    [field_name] that is [None] or empty returns the validation error and
    sends nothing: the request log is left as it was. *)
Theorem C7_onchange_requires_field_name
    (name table script ui_type : string) (field_name : option string)
    (is_active : bool) ev log :
  field_name = None \/ field_name = Some "" ->
  create_client_script name table script ui_type "onChange" field_name is_active
    ev log
  = (Return "Error: 'field_name' is required when script_type is 'onChange'.", log).
Proof. intros [-> | ->]; reflexivity. Qed.

Lemma C7_onchange_requires_field_name_witness :
  run (create_client_script "warn" "incident" "function onChange() {}" "all"
         "onChange" None true) rejecting
  = (Return "Error: 'field_name' is required when script_type is 'onChange'.", []).
Proof.
  apply (C7_onchange_requires_field_name "warn" "incident" "function onChange() {}"
           "all" None true rejecting []).
  left; reflexivity.
Defined.

(* --------------------------------------------------------------------- *)
(** ** C9: the listing limit *)
(* --------------------------------------------------------------------- *)

(** C9.  For every [limit] that [json.dumps] can write, that is every
    [limit] above [-10^4300] (a [limit] above 100 is clamped first,
    whatever its size), each listing tool sends exactly one request, a
    GET on its table whose parameters are [sysparm_limit = min(limit, 100)]
    and [sysparm_display_value = "true"], whatever the remote end does. *)
Theorem C9_listing_limit_clamped (limit : Z) ev :
  - int_digits_limit < limit ->
  let params := [("sysparm_limit", VInt (Z.min limit 100));
                 ("sysparm_display_value", VStr "true")] in
  snd (run (get_incidents limit) ev)
    = [request_for ev "GET" "api/now/table/incident" params]
  /\ snd (run (get_change_requests limit) ev)
    = [request_for ev "GET" "api/now/table/change_request" params]
  /\ snd (run (get_users limit) ev)
    = [request_for ev "GET" "api/now/table/sys_user" params].
Proof.
  intros _. cbv zeta. unfold run, get_incidents, get_change_requests, get_users.
  repeat split.
  all: rewrite try_silent_log by apply silent_on_ret.
  all: rewrite bind_silent_log by (intros; silence).
  all: apply (sn_get_log _ limit ev []).
Qed.

Lemma int_digits_limit_positive : 1000000 < int_digits_limit.
Proof. vm_compute. reflexivity. Qed.

Lemma C9_listing_limit_witness :
  let params := [("sysparm_limit", VInt 100);
                 ("sysparm_display_value", VStr "true")] in
  snd (run (get_incidents 500) accepting)
    = [request_for accepting "GET" "api/now/table/incident" params]
  /\ snd (run (get_change_requests 500) accepting)
    = [request_for accepting "GET" "api/now/table/change_request" params]
  /\ snd (run (get_users 500) accepting)
    = [request_for accepting "GET" "api/now/table/sys_user" params].
Proof.
  apply (C9_listing_limit_clamped 500 accepting).
  pose proof int_digits_limit_positive. lia.
Defined.

(* --------------------------------------------------------------------- *)
(** ** C10: missing identifiers *)
(* --------------------------------------------------------------------- *)

(** C10.  When the helper reports success with a result mapping [d],
    [create_incident] and [create_kb_article] return their confirmation
    line, in which an identifier missing from [d] reads [UNKNOWN]. *)
Theorem C10_missing_identifier_reads_UNKNOWN
    (short_description article_body : string)
    (description caller_id urgency impact kb_knowledge_base workflow_state
       : option string)
    ev (d : dict) :
  (forall endpoint p,
      fst (_make_servicenow_request endpoint p "POST" ev []) = Return (VDict d)) ->
  let ident k := match lookup k d with Some v => str v | None => "UNKNOWN" end in
  fst (run (create_incident short_description description caller_id urgency impact) ev)
    = Return ("Successfully created incident " ++ ident "number"
                ++ " (Sys ID: " ++ ident "sys_id" ++ ").")
  /\ fst (run (create_kb_article short_description article_body
                 kb_knowledge_base workflow_state) ev)
    = Return ("Successfully created KB article " ++ ident "number"
                ++ " (Sys ID: " ++ ident "sys_id" ++ ").").
Proof.
  intros H ident. unfold run, create_incident, create_kb_article. cbv zeta.
  split; rewrite simple_tool_run;
    match goal with
    | |- context [_make_servicenow_request ?e ?p "POST" ev []] =>
        specialize (H e p);
        destruct (_make_servicenow_request e p "POST" ev []) as [o log']
    end;
    simpl in H; subst o; unfold ident, dict_get; simpl;
    destruct (lookup "number" d), (lookup "sys_id" d); reflexivity.
Qed.

Lemma C10_missing_identifier_witness :
  fst (run (create_incident "Printer down" None None (Some "3") (Some "3"))
         numbered_only)
    = Return "Successfully created incident INC0010001 (Sys ID: UNKNOWN)."
  /\ fst (run (create_kb_article "Printer down" "Restart it." None (Some "draft"))
            numbered_only)
    = Return "Successfully created KB article INC0010001 (Sys ID: UNKNOWN).".
Proof.
  apply (C10_missing_identifier_reads_UNKNOWN
           "Printer down" "Restart it." None None (Some "3") (Some "3")
           None (Some "draft") numbered_only [("number", VStr "INC0010001")]).
  intros endpoint p. reflexivity.
Defined.

(* --------------------------------------------------------------------- *)
(** ** C2: identifiers in the confirmation *)
(* --------------------------------------------------------------------- *)

(** C2 as stated fails: [create_client_script] reports the record's name,
    so a 201 result's [number] does not occur in what it returns. *)
Lemma C2_client_script_omits_number :
  exists out,
    fst (run (create_client_script "warn" "incident" "function onLoad() {}"
                "all" "onLoad" None true) accepting) = Return out
    /\ ~ occurs_in "REC0010001" out.
Proof.
  eexists. split; [reflexivity|].
  intros H. apply contains_complete in H. vm_compute in H. discriminate.
Qed.

(** C2, amended.  Given a 201 response whose parsed body holds a [result]
    mapping with [number] and [sys_id]: [create_incident] and
    [create_kb_article] return a line containing both values;
    [create_client_script], [create_business_rule] and
    [create_sla_definition] return a line containing the [sys_id] value
    and the record's name (the result's [name], else the requested one);
    so do [create_record_producer] and [create_variable_set] when the
    [sys_id] is non-empty and no dependent item is requested. *)
Theorem C2_confirmation_contains_identifiers
    ev (r : response) (body res : dict) (vn vs : value) :
  (forall q, service ev [] q = Responded r) ->
  status_code r = 201 ->
  json r = Json (VDict body) ->
  lookup "result" body = Some (VDict res) ->
  lookup "number" res = Some vn ->
  lookup "sys_id" res = Some vs ->
  let named out name :=
    occurs_in (str vs) out /\ occurs_in (str (dict_get res "name" (VStr name))) out in
  (forall sd desc caller urg imp, exists out,
     fst (run (create_incident sd desc caller urg imp) ev) = Return out
     /\ occurs_in (str vn) out /\ occurs_in (str vs) out)
  /\ (forall sd art kb wf, exists out,
     fst (run (create_kb_article sd art kb wf) ev) = Return out
     /\ occurs_in (str vn) out /\ occurs_in (str vs) out)
  /\ (forall name table script ui ty field act,
     String.eqb ty "onChange" && negb (given field) = false ->
     exists out,
       fst (run (create_client_script name table script ui ty field act) ev)
       = Return out /\ named out name)
  /\ (forall name table script when order ins upd del qry act, exists out,
     fst (run (create_business_rule name table script when order
                 ins upd del qry act) ev) = Return out
     /\ named out name)
  /\ (forall name table secs start stop pause,
     Z.abs (secs / 86400) <= max_delta_days ->
     exists out,
       fst (run (create_sla_definition name table secs start stop pause) ev)
       = Return out /\ named out name)
  /\ (forall name table sd cat script vars sets,
     truthy vs = true -> nonempty vars = false -> nonempty sets = false ->
     exists out,
       fst (run (create_record_producer name table sd cat script vars sets) ev)
       = Return out /\ named out name)
  /\ (forall name descr vars,
     truthy vs = true -> nonempty vars = false ->
     exists out,
       fst (run (create_variable_set name descr vars) ev) = Return out
       /\ named out name).
Proof.
  intros Hs Hc Hj Hres Hn Hid named.
  assert (Hhelper : forall endpoint p,
             _make_servicenow_request endpoint p "POST" ev []
             = (Return (VDict res), [request_for ev "POST" endpoint p])).
  { intros. now apply (helper_created endpoint p ev [] r body (VDict res)). }
  assert (Gn : forall dflt, dict_get res "number" dflt = vn)
    by (intros; unfold dict_get; now rewrite Hn).
  assert (Gs : forall dflt, dict_get res "sys_id" dflt = vs)
    by (intros; unfold dict_get; now rewrite Hid).
  unfold run, named.
  repeat match goal with |- _ /\ _ => split end.
  - intros. unfold create_incident. cbv zeta.
    rewrite simple_tool_run, Hhelper, Gn, Gs. eexists. split; [reflexivity|].
    split; occurs.
  - intros. unfold create_kb_article. cbv zeta.
    rewrite simple_tool_run, Hhelper, Gn, Gs. eexists. split; [reflexivity|].
    split; occurs.
  - intros name table script ui ty field act Hv. unfold create_client_script.
    rewrite Hv. cbv zeta.
    rewrite simple_tool_run, Hhelper, Gs. eexists. split; [reflexivity|].
    split; occurs.
  - intros. unfold create_business_rule. cbv zeta.
    rewrite simple_tool_run, Hhelper, Gs. eexists. split; [reflexivity|].
    split; occurs.
  - intros name table secs start stop pause Hd. unfold create_sla_definition.
    unfold bind at 1, timedelta_seconds, timedelta_of_seconds.
    destruct (Z.gtb_spec (Z.abs (secs / 86400)) max_delta_days); [lia|].
    cbn [ret]. cbv zeta.
    rewrite simple_tool_run, Hhelper, Gs. eexists. split; [reflexivity|].
    split; occurs.
  - intros name table sd cat script vars sets Ht Hv Hse.
    unfold create_record_producer. cbv zeta.
    unfold try_except at 1, bind at 1. rewrite Hhelper.
    cbn [get ret bind]. unfold bind. cbn [ret]. rewrite Gs, Ht, Hv, Hse.
    cbn. eexists. split; [reflexivity|].
    split; occurs.
  - intros name descr vars Ht Hv.
    unfold create_variable_set. cbv zeta.
    unfold try_except at 1, bind at 1. rewrite Hhelper.
    cbn [get ret bind]. unfold bind. cbn [ret]. rewrite Gs, Ht, Hv.
    cbn. eexists. split; [reflexivity|].
    split; occurs.
Qed.

Lemma C2_confirmation_witness :
  exists out,
    fst (run (create_incident "Printer down" None None (Some "3") (Some "3"))
           accepting) = Return out
    /\ occurs_in "REC0010001" out /\ occurs_in "46d44a5dc0a8010e" out.
Proof.
  destruct (C2_confirmation_contains_identifiers
              accepting created_response
              [("result", VDict [("number", VStr "REC0010001");
                                 ("sys_id", VStr "46d44a5dc0a8010e")])]
              [("number", VStr "REC0010001"); ("sys_id", VStr "46d44a5dc0a8010e")]
              (VStr "REC0010001") (VStr "46d44a5dc0a8010e")
              (fun _ => eq_refl) eq_refl eq_refl eq_refl eq_refl eq_refl)
    as [H _].
  exact (H "Printer down" None None (Some "3") (Some "3")).
Defined.

(* --------------------------------------------------------------------- *)
(** ** C4: what reaches the tool's caller *)
(* --------------------------------------------------------------------- *)

(** A single-call tool returns text whenever the helper raises or
    returns a mapping: every failure the helper classifies (error status,
    transport failure, body that is not JSON) ends as an error line. *)
Lemma simple_tool_returns_text endpoint p k1 d1 k2 d2
      (f : value -> value -> string) (g : string -> string) ev log :
  results_are_mappings ev ->
  exists out,
    fst (try_except
           (result <- _make_servicenow_request endpoint p "POST" ;;
            a <- get result k1 d1 ;;
            b <- get result k2 d2 ;;
            ret (f a b))
           [ on ValueError (fun e => ret (g e)) ] ev log) = Return out.
Proof.
  intros Hm. rewrite simple_tool_run.
  pose proof (Hm endpoint p "POST" log) as Hv.
  pose proof (helper_raises_ValueError endpoint p "POST" ev log) as He.
  destruct (_make_servicenow_request endpoint p "POST" ev log) as [[v|e] log'];
    simpl in *.
  - destruct (Hv v eq_refl) as [d ->]. simpl. eauto.
  - destruct (He e eq_refl) as [msg ->]. simpl. eauto.
Qed.

(** C4 (the code departs from the claim).  A tool catches [ValueError]
    only.  When a success response carries a [result] that is not a
    mapping, the helper returns it as it is and the tool's own [.get]
    raises [AttributeError], which leaves the tool uncaught. *)
Theorem C4_unmapped_result_escapes_the_tool :
  fst (run (create_incident "Printer down" None None (Some "3") (Some "3")) listless)
  = Raised (Exc AttributeError "'list' object has no attribute 'get'").
Proof. reflexivity. Qed.

(** What does hold: the single-call tools return text whenever the
    helper's results are mappings, whatever the remote end does. *)
Lemma single_call_tools_return_text ev log :
  results_are_mappings ev ->
  (forall sd desc caller urg imp, exists out,
      fst (create_incident sd desc caller urg imp ev log) = Return out)
  /\ (forall sd art kb wf, exists out,
      fst (create_kb_article sd art kb wf ev log) = Return out)
  /\ (forall name table script ui ty field act, exists out,
      fst (create_client_script name table script ui ty field act ev log)
      = Return out)
  /\ (forall name table script when order ins upd del qry act, exists out,
      fst (create_business_rule name table script when order
             ins upd del qry act ev log) = Return out)
  /\ (forall name table secs start stop pause,
      Z.abs (secs / 86400) <= max_delta_days ->
      exists out,
        fst (create_sla_definition name table secs start stop pause ev log)
        = Return out).
Proof.
  intros Hm. repeat match goal with |- _ /\ _ => split end.
  - intros. apply simple_tool_returns_text, Hm.
  - intros. apply simple_tool_returns_text, Hm.
  - intros. unfold create_client_script.
    destruct (String.eqb ty "onChange" && negb (given field)).
    + eexists; reflexivity.
    + apply simple_tool_returns_text, Hm.
  - intros. apply simple_tool_returns_text, Hm.
  - intros name table secs start stop pause Hd. unfold create_sla_definition.
    unfold bind at 1, timedelta_seconds, timedelta_of_seconds.
    destruct (Z.gtb_spec (Z.abs (secs / 86400)) max_delta_days); [lia|].
    cbn [ret]. apply simple_tool_returns_text, Hm.
Qed.

(** A second way out: [timedelta] overflows before the [try] is entered. *)
Example sla_duration_overflow_escapes :
  fst (run (create_sla_definition "P1" "incident" (86400 * 1000000000)
              None None None) accepting)
  = Raised (Exc OverflowError "days=1000000000; must have magnitude <= 999999999").
Proof. reflexivity. Qed.

(* --------------------------------------------------------------------- *)
(** ** C6: no parent identifier, no dependent calls *)
(* --------------------------------------------------------------------- *)

(** C6.  When the parent creation's result mapping holds no non-empty
    [sys_id], each composite tool returns its error line at once, and the
    parent creation is the only request sent: no variable set is attached
    and no variable is created. *)
Theorem C6_no_sys_id_no_dependent_calls
    (name table_name : string) (short_description category_sys_id script
       description : option string)
    (variables : option (list dict)) (variable_set_ids : option (list string))
    ev (d : dict) :
  (forall endpoint p,
      fst (_make_servicenow_request endpoint p "POST" ev []) = Return (VDict d)) ->
  truthy (dict_get d "sys_id" (VStr "")) = false ->
  (exists p,
     run (create_record_producer name table_name short_description
            category_sys_id script variables variable_set_ids) ev
     = (Return "Error creating Record Producer: No sys_id returned from ServiceNow.",
        [request_for ev "POST" "api/now/table/sc_cat_item_producer" p]))
  /\ (exists p,
     run (create_variable_set name description variables) ev
     = (Return "Error creating Variable Set: No sys_id returned from ServiceNow.",
        [request_for ev "POST" "api/now/table/io_set" p])).
Proof.
  intros H Hid. unfold run, create_record_producer, create_variable_set. cbv zeta.
  split; eexists; unfold try_except at 1, bind at 1;
    match goal with
    | |- context [_make_servicenow_request ?e ?p "POST" ev []] =>
        pose proof (H e p) as Ho;
        pose proof (helper_log e p "POST" ev [] (or_introl eq_refl)) as Hl;
        destruct (_make_servicenow_request e p "POST" ev []) as [o log']
    end;
    simpl in Ho, Hl; subst o log';
    cbn [get ret bind]; unfold bind; cbn [ret]; rewrite Hid; reflexivity.
Qed.

Lemma C6_no_sys_id_witness :
  (exists p,
     run (create_record_producer "Request laptop" "incident" None None None
            (Some [[("name", VStr "model")]]) (Some ["0a1b2c"])) numbered_only
     = (Return "Error creating Record Producer: No sys_id returned from ServiceNow.",
        [request_for numbered_only "POST" "api/now/table/sc_cat_item_producer" p]))
  /\ (exists p,
     run (create_variable_set "Request laptop" None
            (Some [[("name", VStr "model")]])) numbered_only
     = (Return "Error creating Variable Set: No sys_id returned from ServiceNow.",
        [request_for numbered_only "POST" "api/now/table/io_set" p])).
Proof.
  apply (C6_no_sys_id_no_dependent_calls
           "Request laptop" "incident" None None None None
           (Some [[("name", VStr "model")]]) (Some ["0a1b2c"])
           numbered_only [("number", VStr "INC0010001")]).
  - intros endpoint p. reflexivity.
  - reflexivity.
Defined.

(* --------------------------------------------------------------------- *)
(** ** C8: variable type codes *)
(* --------------------------------------------------------------------- *)

Lemma append_nil_r (s : string) : s ++ "" = s.
Proof. induction s as [|c s IH]; simpl; [reflexivity | now rewrite IH]. Qed.

Lemma guarded_for_each {X} (body : X -> M string) (xs : option (list X)) :
  (if nonempty xs then for_each body (items xs) [] else ret [])
  = for_each body (items xs) [].
Proof. destruct xs as [[|x l]|]; reflexivity. Qed.

Lemma guarded_for_each_indexed {X} (body : Z -> X -> M string) (xs : option (list X)) :
  (if nonempty xs then for_each_indexed body 0 (items xs) [] else ret [])
  = for_each_indexed body 0 (items xs) [].
Proof. destruct xs as [[|x l]|]; reflexivity. Qed.

Lemma lookup_dict_set_other (k k' : string) (v : value) (d : dict) :
  String.eqb k k' = false -> lookup k (dict_set d k' v) = lookup k d.
Proof.
  intros Hk. induction d as [|[k0 v0] d IH]; simpl.
  - now rewrite Hk.
  - destruct (String.eqb k' k0) eqn:E; simpl.
    + apply String.eqb_eq in E. subst k0. now rewrite Hk.
    + destruct (String.eqb k k0); [reflexivity | exact IH].
Qed.

Lemma var_type_map_code (s : string) :
  dict_get var_type_map (lower s) (VStr "2") = VStr (spec_type_code (Some s)).
Proof.
  unfold dict_get, var_type_map, spec_type_code. cbv zeta. cbn [lookup].
  repeat match goal with
         | |- context [String.eqb (lower s) ?k] => destruct (String.eqb (lower s) k)
         end; reflexivity.
Qed.

Lemma spec_type_code_unknown (s : string) :
  ~ In (lower s) type_names -> spec_type_code (Some s) = "2".
Proof.
  intros Hn. unfold spec_type_code. cbv zeta.
  repeat match goal with
         | |- context [String.eqb (lower s) ?k] =>
             destruct (String.eqb_spec (lower s) k) as [E|_];
             [exfalso; apply Hn; rewrite E; simpl; tauto|]
         end.
  reflexivity.
Qed.

(** Building the payload of a well-typed definition raises nothing and
    sends nothing; its [type] field is the table's code. *)
Lemma build_var_payload_run parent_field sid idx var_def ev log :
  type_is_name var_def ->
  exists p,
    build_var_payload parent_field sid idx var_def ev log = (Return p, log)
    /\ (parent_field = "cat_item" \/ parent_field = "variable_set" ->
        lookup "type" p = Some (VStr (spec_type_code (declared_type var_def)))).
Proof.
  intros Ht. unfold build_var_payload, declared_type.
  assert (E : exists k1 k2,
             dict_get var_def "type" (VStr "string") = VStr k1
             /\ dict_get var_def "type" (VStr "") = VStr k2
             /\ dict_get var_type_map (lower k1) (VStr "2")
                = VStr (spec_type_code
                          match lookup "type" var_def with
                          | Some (VStr s) => Some s
                          | _ => None
                          end)).
  { unfold dict_get at 1 2.
    destruct Ht as [-> | [s ->]].
    - exists "string", "". repeat split.
    - exists s, s. repeat split. apply var_type_map_code. }
  destruct E as (k1 & k2 & -> & -> & Ecode).
  unfold bind. cbn [get_lower ret]. rewrite Ecode.
  eexists. split; [reflexivity|].
  intros Hp.
  destruct (String.eqb (lower k2) "reference" && has_key "reference_table" var_def);
    destruct (has_key "default_value" var_def);
    rewrite ?lookup_dict_set_other by reflexivity;
    destruct Hp as [-> | ->]; reflexivity.
Qed.

(** One turn of the variable loop, for a definition with a type name:
    exactly one request goes out, and it carries the table's code. *)
Lemma add_variable_sends_typed
    (var_endpoint parent_field : string) (parent_sys_id : value)
    (idx : Z) (var_def : dict) ev log :
  parent_field = "cat_item" \/ parent_field = "variable_set" ->
  type_is_name var_def ->
  exists q,
    snd (add_variable var_endpoint parent_field parent_sys_id idx var_def ev log)
    = (log ++ [q])%list
    /\ variable_request ev var_endpoint var_def q.
Proof.
  intros Hp Ht.
  destruct (build_var_payload_run parent_field parent_sys_id idx var_def ev log Ht)
    as (p & Hb & Hty).
  specialize (Hty Hp).
  exists (request_for ev "POST" var_endpoint p).
  split; [|repeat split; assumption].
  unfold add_variable.
  rewrite try_silent_log
    by apply (silent_on_ret ValueError
                (fun e => "Error adding variable '"
                            ++ str (var_name idx var_def) ++ "': " ++ e)).
  unfold bind at 1. rewrite Hb.
  rewrite bind_silent_log by (intros; silence).
  apply helper_log. left; reflexivity.
Qed.

(** For a [type] that is not a name the turn raises before any request. *)
Lemma add_variable_untyped
    (var_endpoint parent_field : string) (parent_sys_id : value)
    (idx : Z) (var_def : dict) ev log :
  ~ type_is_name var_def ->
  exists e,
    add_variable var_endpoint parent_field parent_sys_id idx var_def ev log
    = (Raised e, log).
Proof.
  intros Hn. unfold add_variable, try_except, bind at 1, build_var_payload, bind at 1.
  unfold dict_get at 1.
  destruct (lookup "type" var_def) as [[| | |s| |]|] eqn:E;
    try (eexists; reflexivity).
  - exfalso. apply Hn. right. eauto.
  - exfalso. apply Hn. now left.
Qed.

Lemma type_is_name_dec (var_def : dict) : type_is_name var_def \/ ~ type_is_name var_def.
Proof.
  unfold type_is_name.
  destruct (lookup "type" var_def) as [[| | |s| |]|]; eauto;
    right; intros [H | [s' H]]; discriminate.
Qed.

Lemma snd_bind {A B} (c : M A) (k : A -> M B) ev log :
  snd (bind c k ev log)
  = match c ev log with
    | (Return a, log') => snd (k a ev log')
    | (Raised _, log') => log'
    end.
Proof. unfold bind. destruct (c ev log) as [[a|e] log']; reflexivity. Qed.

(** The variable loop, whatever the remote end answers and wherever the
    loop stops: the requests sent are those of the first definitions, in
    order, one each. *)
Lemma variable_loop_log endpoint parent_field sid ev defs :
  parent_field = "cat_item" \/ parent_field = "variable_set" ->
  forall log idx acc, exists qs,
    snd (for_each_indexed (add_variable endpoint parent_field sid) idx defs acc ev log)
    = (log ++ qs)%list
    /\ Forall2 (variable_request ev endpoint) (firstn (List.length qs) defs) qs.
Proof.
  intros Hp. induction defs as [|var_def defs IH]; intros log idx acc.
  - exists []. simpl. rewrite app_nil_r. split; [reflexivity | constructor].
  - cbn [for_each_indexed]. rewrite snd_bind.
    destruct (type_is_name_dec var_def) as [Ht | Hn].
    + destruct (add_variable_sends_typed endpoint parent_field sid idx var_def
                  ev log Hp Ht) as (q & Hlog & Hq).
      destruct (add_variable endpoint parent_field sid idx var_def ev log)
        as [[line|e] log'] eqn:Erun; simpl in Hlog; subst log'.
      * destruct (IH (log ++ [q])%list (idx + 1) (acc ++ [line])%list)
          as (qs & Hrest & Hqs).
        exists (q :: qs). rewrite Hrest, <- app_assoc. split; [reflexivity|].
        simpl. constructor; assumption.
      * exists [q]. split; [reflexivity|]. simpl. constructor; [assumption|constructor].
    + destruct (add_variable_untyped endpoint parent_field sid idx var_def
                  ev log Hn) as (e & ->).
      exists []. rewrite app_nil_r. split; [reflexivity | constructor].
Qed.

Lemma add_variable_set_log sid set_id ev log :
  snd (add_variable_set sid set_id ev log)
  = (log ++ [request_for ev "POST" "api/now/table/io_set_item"
               [("sc_cat_item", sid); ("variable_set", VStr set_id)]])%list.
Proof.
  unfold add_variable_set. cbv zeta.
  rewrite try_silent_log
    by apply (silent_on_ret ValueError
                (fun e => "Error adding variable set (ID: " ++ set_id ++ "): " ++ e)).
  rewrite bind_silent_log by (intros; silence).
  apply helper_log. left; reflexivity.
Qed.

(** The variable-set loop sends attachments only. *)
Lemma variable_set_loop_log sid ev ids :
  forall log acc, exists qs,
    snd (for_each (add_variable_set sid) ids acc ev log) = (log ++ qs)%list
    /\ Forall (fun q => q = request_for ev "POST" "api/now/table/io_set_item"
                            (payload q)) qs.
Proof.
  induction ids as [|set_id ids IH]; intros log acc.
  - exists []. simpl. rewrite app_nil_r. split; [reflexivity | constructor].
  - cbn [for_each]. rewrite snd_bind.
    pose proof (add_variable_set_log sid set_id ev log) as Hlog.
    destruct (add_variable_set sid set_id ev log) as [[line|e] log'];
      simpl in Hlog; subst log'.
    + destruct (IH (log ++ [request_for ev "POST" "api/now/table/io_set_item"
                              [("sc_cat_item", sid); ("variable_set", VStr set_id)]])%list
                   (acc ++ [line])%list) as (qs & Hrest & Hqs).
      eexists (_ :: qs). rewrite Hrest, <- app_assoc. split; [reflexivity|].
      constructor; [reflexivity | assumption].
    + eexists [_]. split; [reflexivity|]. constructor; [reflexivity | constructor].
Qed.

(** The codes as they leave [create_record_producer]: the parent request
    has no [type]; [boolean] goes out as ["6"], an unknown name as ["2"]. *)
Example producer_type_codes :
  map (fun q => lookup "type" (payload q))
      (snd (run (create_record_producer "Request laptop" "incident" None None None
                   (Some [[("name", VStr "urgent"); ("type", VStr "boolean")];
                          [("name", VStr "model"); ("type", VStr "unknown_type")]])
                   None) accepting))
  = [None; Some (VStr "6"); Some (VStr "2")].
Proof. reflexivity. Qed.

(** A [type] that is not a name stops the tool before the variable's
    request: [.lower()] raises [AttributeError], which no clause catches. *)
Example null_type_escapes :
  run (create_variable_set "Laptop details" None
         (Some [[("name", VStr "model"); ("type", VNone)]])) accepting
  = (Raised (Exc AttributeError "'NoneType' object has no attribute 'lower'"),
     [request_for accepting "POST" "api/now/table/io_set"
        [("name", VStr "Laptop details");
         ("description", VStr "Laptop details");
         ("active", VStr "true")]]).
Proof. reflexivity. Qed.

(* --------------------------------------------------------------------- *)
(** ** C5: partial failure in [create_record_producer] *)
(* --------------------------------------------------------------------- *)

(** The shape shared by the two dependent calls: post, look for a
    [sys_id], report. *)
Lemma dependent_call_run endpoint p (added failed : string) (err : string -> string)
      ev log :
  results_are_mappings ev ->
  exists line,
    try_except
      (r <- _make_servicenow_request endpoint p "POST" ;;
       created <- get r "sys_id" VNone ;;
       if truthy created then ret added else ret failed)
      [ on ValueError (fun e => ret (err e)) ] ev log
    = (Return line, (log ++ [request_for ev "POST" endpoint p])%list)
    /\ if creation_succeeds ev log endpoint p then line = added
       else line = failed \/ exists e, line = err e.
Proof.
  intros Hm. unfold try_except, bind, creation_succeeds.
  pose proof (Hm endpoint p "POST" log) as Hv.
  pose proof (helper_raises_ValueError endpoint p "POST" ev log) as He.
  pose proof (helper_log endpoint p "POST" ev log (or_introl eq_refl)) as Hl.
  destruct (_make_servicenow_request endpoint p "POST" ev log) as [[v|e] log'];
    simpl in Hv, He, Hl; subst log'.
  - destruct (Hv v eq_refl) as [d ->]. cbn [get ret fst].
    destruct (truthy (dict_get d "sys_id" VNone)); eexists; split;
      try reflexivity; auto.
  - destruct (He e eq_refl) as [msg ->]. cbn. eexists; split; [reflexivity|].
    right. eauto.
Qed.

Lemma add_variable_run endpoint parent_field sid idx var_def ev log :
  results_are_mappings ev ->
  type_is_name var_def ->
  exists p line,
    add_variable endpoint parent_field sid idx var_def ev log
    = (Return line, (log ++ [request_for ev "POST" endpoint p])%list)
    /\ variable_line idx var_def (creation_succeeds ev log endpoint p) line.
Proof.
  intros Hm Ht.
  destruct (build_var_payload_run parent_field sid idx var_def ev log Ht)
    as (p & Hb & _).
  destruct (dependent_call_run endpoint p
              ("Added variable '" ++ str (var_name idx var_def) ++ "'")
              ("Failed to add variable '" ++ str (var_name idx var_def) ++ "'")
              (fun e => "Error adding variable '"
                          ++ str (var_name idx var_def) ++ "': " ++ e)
              ev log Hm) as (line & Hrun & Hline).
  exists p, line. split; [|exact Hline].
  rewrite <- Hrun. unfold add_variable, try_except, bind. rewrite Hb. reflexivity.
Qed.

Lemma add_variable_set_run sid set_id ev log :
  results_are_mappings ev ->
  exists p line,
    add_variable_set sid set_id ev log
    = (Return line,
       (log ++ [request_for ev "POST" "api/now/table/io_set_item" p])%list)
    /\ variable_set_line set_id
         (creation_succeeds ev log "api/now/table/io_set_item" p) line.
Proof.
  intros Hm. eexists.
  apply (dependent_call_run "api/now/table/io_set_item" _
           ("Added variable set (ID: " ++ set_id ++ ")")
           ("Failed to add variable set (ID: " ++ set_id ++ ")")
           (fun e => "Error adding variable set (ID: " ++ set_id ++ "): " ++ e)
           ev log Hm).
Qed.

(** The loops never stop early: every item gets its request and its line. *)
Lemma variable_loop_run endpoint parent_field sid ev defs :
  results_are_mappings ev ->
  Forall type_is_name defs ->
  forall log idx acc, exists qs lines,
    for_each_indexed (add_variable endpoint parent_field sid) idx defs acc ev log
    = (Return (acc ++ lines)%list, (log ++ qs)%list)
    /\ variable_lines ev endpoint log idx defs qs lines.
Proof.
  intros Hm Hd. induction Hd as [|var_def defs Ht _ IH]; intros log idx acc.
  - exists [], []. simpl. now rewrite !app_nil_r.
  - destruct (add_variable_run endpoint parent_field sid idx var_def ev log Hm Ht)
      as (p & line & Hrun & Hline).
    destruct (IH (log ++ [request_for ev "POST" endpoint p])%list (idx + 1)
                 (acc ++ [line])%list) as (qs & lines & Hrest & Hlines).
    exists (request_for ev "POST" endpoint p :: qs), (line :: lines).
    split.
    + simpl. unfold bind. rewrite Hrun, Hrest.
      now rewrite <- !app_assoc.
    + simpl. auto.
Qed.

Lemma variable_set_loop_run sid ev ids :
  results_are_mappings ev ->
  forall log acc, exists qs lines,
    for_each (add_variable_set sid) ids acc ev log
    = (Return (acc ++ lines)%list, (log ++ qs)%list)
    /\ variable_set_lines ev log ids qs lines.
Proof.
  intros Hm. induction ids as [|set_id ids IH]; intros log acc.
  - exists [], []. simpl. now rewrite !app_nil_r.
  - destruct (add_variable_set_run sid set_id ev log Hm)
      as (p & line & Hrun & Hline).
    destruct (IH (log ++ [request_for ev "POST" "api/now/table/io_set_item" p])%list
                 (acc ++ [line])%list) as (qs & lines & Hrest & Hlines).
    exists (request_for ev "POST" "api/now/table/io_set_item" p :: qs),
           (line :: lines).
    split.
    + simpl. unfold bind. rewrite Hrun, Hrest.
      now rewrite <- !app_assoc.
    + simpl. auto.
Qed.

(** What the per-item [try] does achieve.  In [create_record_producer],
    once the parent creation has returned a result with a non-empty
    [sys_id], and as long as the helper's results are mappings and the
    definitions carry a type name when they carry a [type], every
    requested variable set and every requested variable gets its own
    request and its own line, whatever happened to the items before it:
    the success marker when its creation succeeded, a failure marker when
    the helper raised or returned no [sys_id].  The tool returns the
    confirmation with the parent's name and [sys_id], followed by those
    lines. *)
Lemma producer_items_report_independently
    (name table_name : string) (short_description category_sys_id script : option string)
    (variables : option (list dict)) (variable_set_ids : option (list string))
    ev (res : dict) :
  results_are_mappings ev ->
  Forall type_is_name (items variables) ->
  (forall endpoint p,
      fst (_make_servicenow_request endpoint p "POST" ev []) = Return (VDict res)) ->
  truthy (dict_get res "sys_id" (VStr "")) = true ->
  let header :=
    "Successfully created Record Producer '"
      ++ str (dict_get res "name" (VStr name))
      ++ "' (Sys ID: " ++ str (dict_get res "sys_id" (VStr "")) ++ ")." in
  exists q0 set_qs set_lines var_qs var_lines,
    run (create_record_producer name table_name short_description
           category_sys_id script variables variable_set_ids) ev
    = (Return
         (header
            ++ (if is_nil set_lines then ""
                else nl ++ "Variable Sets: " ++ join "; " set_lines)
            ++ (if is_nil var_lines
                then if is_nil set_lines && negb (nonempty variables)
                     then " No variables were added." else ""
                else nl ++ "Variables: " ++ join "; " var_lines)),
       (q0 :: set_qs ++ var_qs)%list)
    /\ variable_set_lines ev [q0] (items variable_set_ids) set_qs set_lines
    /\ variable_lines ev "api/now/table/item_option_new" (q0 :: set_qs) 0
         (items variables) var_qs var_lines.
Proof.
  intros Hm Hd Hparent Hid header.
  unfold run, create_record_producer. cbv zeta.
  unfold try_except at 1, bind at 1.
  match goal with
  | |- context [_make_servicenow_request ?e ?p "POST" ev []] =>
      pose proof (Hparent e p) as Ho;
      pose proof (helper_log e p "POST" ev [] (or_introl eq_refl)) as Hl;
      set (q0 := request_for ev "POST" e p) in *;
      exists q0;
      destruct (_make_servicenow_request e p "POST" ev []) as [o log']
  end.
  simpl in Ho, Hl. subst o log'.
  cbn [get ret]. unfold bind at 1 2. cbn [ret]. rewrite Hid. cbn [negb].
  rewrite guarded_for_each, guarded_for_each_indexed.
  destruct (variable_set_loop_run (dict_get res "sys_id" (VStr "")) ev
              (items variable_set_ids) Hm [q0] [])
    as (set_qs & set_lines & Hsets & Hset_lines).
  destruct (variable_loop_run "api/now/table/item_option_new" "cat_item"
              (dict_get res "sys_id" (VStr "")) ev (items variables) Hm Hd
              (q0 :: set_qs) 0 [])
    as (var_qs & var_lines & Hvars & Hvar_lines).
  exists set_qs, set_lines, var_qs, var_lines.
  split; [|split; assumption].
  unfold bind at 1. rewrite Hsets.
  unfold bind at 1. cbn [app] in *. rewrite Hvars. cbn [ret app].
  f_equal. f_equal. fold header.
  destruct set_lines as [|sl set_lines], var_lines as [|vl var_lines];
    cbn [is_nil negb andb].
  - destruct (nonempty variables); cbn [negb append];
      [now rewrite append_nil_r | reflexivity].
  - reflexivity.
  - now rewrite append_nil_r.
  - now rewrite append_assoc.
Qed.

(** The helper returns mappings as soon as the remote end never puts
    anything but a mapping under [result]. *)
Lemma mappings_from_service ev :
  (forall log q r body x,
      service ev log q = Responded r ->
      json r = Json (VDict body) ->
      lookup "result" body = Some x ->
      exists d, x = VDict d) ->
  results_are_mappings ev.
Proof.
  intros Hsrv endpoint p meth log v.
  unfold _make_servicenow_request.
  unfold bind at 1. cbn [SN_INSTANCE].
  unfold try_except at 1.
  match goal with |- context [match ?b ev log with _ => _ end] =>
    destruct (b ev log) as [[v0|e0] log'] eqn:Eb end.
  - cbn [fst]. intros Hv. inversion Hv; subst v0. clear Hv.
    revert Eb. unfold bind at 1.
    match goal with |- context [match ?s ev log with _ => _ end] =>
      destruct (s ev log) as [[r|e1] log1] eqn:Es end; [|discriminate].
    assert (Hr : exists q, service ev log q = Responded r).
    { revert Es.
      destruct (String.eqb meth "POST"); [|destruct (String.eqb meth "GET")];
        unfold client_post, client_get, send, raise;
        try discriminate;
        match goal with |- context [service ev log ?q] =>
          destruct (service ev log q) eqn:Eq end;
        intros H; inversion H; subst; eauto. }
    destruct Hr as [q Hq].
    unfold bind at 1, raise_for_status.
    destruct ((200 <=? status_code r) && (status_code r <=? 299));
      cbn [ret raise]; [|discriminate].
    destruct (status_code r =? 204); [intros H; inversion H; eauto|].
    assert (Hget : forall dflt : dict,
               (parsed <- response_json r ;; get parsed "result" (VDict dflt)) ev log1
               = (Return v, log') -> exists d, v = VDict d).
    { intros dflt. unfold bind, response_json.
      destruct (json r) as [parsed|why] eqn:Ej; cbn [ret raise]; [|discriminate].
      destruct parsed as [| | | | |body]; cbn [get raise ret]; try discriminate.
      unfold dict_get. destruct (lookup "result" body) as [x|] eqn:El;
        intros H; inversion H; subst; eauto. }
    destruct (status_code r =? 201); apply Hget.
  - cbn [dispatch]. destruct e0 as [m r|c m].
    + rewrite status_error_clause. discriminate.
    + destruct (issubclass c RequestError); discriminate.
Qed.

Lemma flaky_results_are_mappings : results_are_mappings flaky.
Proof.
  apply mappings_from_service. intros log q r body x Hs Hj Hl.
  assert (r = laptop_response) as ->.
  { simpl in Hs. destruct log as [|a [|b [|c l]]]; inversion Hs; reflexivity. }
  inversion Hj; subst body. simpl in Hl. inversion Hl. eauto.
Defined.

Lemma producer_items_report_independently_example :
  let header := "Successfully created Record Producer 'Request laptop'"
                  ++ " (Sys ID: 46d44a5dc0a8010e)." in
  exists q0 set_qs set_lines var_qs var_lines,
    run (create_record_producer "Request laptop" "incident" None None None
           two_variables None) flaky
    = (Return
         (header
            ++ (if is_nil set_lines then ""
                else nl ++ "Variable Sets: " ++ join "; " set_lines)
            ++ (if is_nil var_lines
                then if is_nil set_lines && negb (nonempty two_variables)
                     then " No variables were added." else ""
                else nl ++ "Variables: " ++ join "; " var_lines)),
       (q0 :: set_qs ++ var_qs)%list)
    /\ variable_set_lines flaky [q0] [] set_qs set_lines
    /\ variable_lines flaky "api/now/table/item_option_new" (q0 :: set_qs) 0
         (items two_variables) var_qs var_lines.
Proof.
  apply (producer_items_report_independently
           "Request laptop" "incident" None None None two_variables None flaky
           [("name", VStr "Request laptop"); ("sys_id", VStr "46d44a5dc0a8010e")]).
  - exact flaky_results_are_mappings.
  - repeat (apply Forall_cons; [right; eexists; reflexivity|]). apply Forall_nil.
  - intros endpoint p. reflexivity.
  - reflexivity.
Defined.

(** Two variables, the second refused: one success marker, one failure
    marker, after the parent's name and [sys_id]; three requests sent. *)
Example one_of_two_variables_fails :
  fst (run (create_record_producer "Request laptop" "incident" None None None
              two_variables None) flaky)
  = Return ("Successfully created Record Producer 'Request laptop'"
              ++ " (Sys ID: 46d44a5dc0a8010e)." ++ nl
              ++ "Variables: Added variable 'model'; "
              ++ "Error adding variable 'colour': Could not connect to ServiceNow: "
              ++ "Request Error: All connection attempts failed")
  /\ List.length (snd (run (create_record_producer "Request laptop" "incident"
                              None None None two_variables None) flaky)) = 3%nat.
Proof. split; reflexivity. Qed.

(** C5 (the code departs from the claim).  The loop body catches
    [ValueError] only.  A dependent creation answered with a success
    status and a [result] that is not a mapping makes [var_result.get]
    raise [AttributeError]; a definition whose [type] is [None] makes
    [.lower()] raise it.  Either way the exception passes both [except]
    clauses: the remaining items get no request and the tool returns no
    text, so neither the per-item line nor the parent's name and [sys_id]
    reach the caller. *)
Theorem C5_dependent_fault_aborts_the_tool :
  (fst (run (create_record_producer "Request laptop" "incident" None None None
               two_variables None) half_listless)
   = Raised (Exc AttributeError "'list' object has no attribute 'get'")
   /\ map url (snd (run (create_record_producer "Request laptop" "incident"
                           None None None two_variables None) half_listless))
      = ["https://dev.example.com/api/now/table/sc_cat_item_producer";
         "https://dev.example.com/api/now/table/item_option_new"])
  /\ (fst (run (create_record_producer "Request laptop" "incident" None None None
                  null_typed_variables None) accepting)
      = Raised (Exc AttributeError "'NoneType' object has no attribute 'lower'")
      /\ map url (snd (run (create_record_producer "Request laptop" "incident"
                              None None None null_typed_variables None) accepting))
         = ["https://dev.example.com/api/now/table/sc_cat_item_producer"]).
Proof. repeat split; reflexivity. Qed.

(* --------------------------------------------------------------------- *)
(** ** C3: the SLA duration *)
(* --------------------------------------------------------------------- *)

Lemma below_ind (P : Z -> Prop) (n : nat) :
  (forall k, (k < n)%nat -> P (Z.of_nat k)) ->
  forall x, 0 <= x < Z.of_nat n -> P x.
Proof.
  intros H x Hx. replace x with (Z.of_nat (Z.to_nat x)) by lia. apply H. lia.
Qed.

Lemma fmt_02d_two_digits (x : Z) : 0 <= x < 60 -> fmt_02d x = two_digits x.
Proof.
  revert x. apply (below_ind _ 60). intros k Hk.
  do 60 (destruct k as [|k]; [reflexivity|]). lia.
Qed.

Lemma split_head_two_digits (x : Z) (rest : string) :
  0 <= x < 60 ->
  split_head "." (two_digits x ++ rest) = two_digits x ++ split_head "." rest.
Proof.
  revert x. apply (below_ind _ 60). intros k Hk.
  do 60 (destruct k as [|k]; [reflexivity|]). lia.
Qed.

Lemma split_head_hours (h : Z) (rest : string) :
  0 <= h < 24 ->
  split_head "." (itoa h ++ rest) = itoa h ++ split_head "." rest.
Proof.
  revert h. apply (below_ind _ 24). intros k Hk.
  do 24 (destruct k as [|k]; [reflexivity|]). lia.
Qed.

Lemma zfill_hours (h : Z) (a b c d : ascii) :
  0 <= h < 24 ->
  zfill 8 (itoa h ++ String ":" (String a (String b (String ":"
                    (String c (String d ""))))))
  = two_digits h ++ String ":" (String a (String b (String ":"
                    (String c (String d ""))))).
Proof.
  revert h. apply (below_ind _ 24). intros k Hk.
  do 24 (destruct k as [|k]; [reflexivity|]). lia.
Qed.

(** Below one day the [duration] is the clock time [1970-01-01 HH:MM:SS]. *)
Lemma glide_duration_within_a_day (n : Z) :
  0 <= n < 86400 ->
  exists td, timedelta_of_seconds n = Some td
             /\ glide_duration td = "1970-01-01 " ++ clock n.
Proof.
  intros Hn. unfold timedelta_of_seconds.
  rewrite (Z.div_small n 86400), (Z.mod_small n 86400) by lia.
  eexists. split; [reflexivity|].
  unfold glide_duration, timedelta_str, clock. cbn [td_days td_seconds Z.eqb].
  cbv zeta.
  assert (Hh : 0 <= n / 60 / 60 < 24).
  { split; [apply Z.div_pos; [apply Z.div_pos|]; lia|].
    apply Z.div_lt_upper_bound; [lia|]. apply Z.div_lt_upper_bound; lia. }
  assert (Hm : 0 <= n / 60 mod 60 < 60) by (apply Z.mod_pos_bound; lia).
  assert (Hs : 0 <= n mod 60 < 60) by (apply Z.mod_pos_bound; lia).
  rewrite !fmt_02d_two_digits by assumption.
  rewrite split_head_hours by assumption.
  change (split_head "." (":" ++ two_digits (n / 60 mod 60) ++ ":" ++ two_digits (n mod 60)))
    with (":" ++ split_head "." (two_digits (n / 60 mod 60) ++ ":" ++ two_digits (n mod 60))).
  rewrite split_head_two_digits by assumption.
  change (split_head "." (":" ++ two_digits (n mod 60)))
    with (":" ++ split_head "." (two_digits (n mod 60) ++ "")).
  rewrite split_head_two_digits by assumption.
  cbn [split_head]. rewrite append_nil_r.
  replace (n / 60 / 60) with (n / 3600) in *
    by (rewrite Z.div_div by lia; reflexivity).
  unfold two_digits at 1 2 4 5. cbn [append].
  rewrite zfill_hours by assumption.
  reflexivity.
Qed.

(** The example of the source comment: 8 hours. *)
Example eight_hours :
  map (fun q => lookup "duration" (payload q))
      (snd (run (create_sla_definition "P1 resolution" "incident" 28800
                   None None None) accepting))
  = [Some (VStr "1970-01-01 08:00:00")].
Proof. reflexivity. Qed.

(** C3 (the code departs from the claim).  From one day on, [str(td)]
    starts with a day count, [zfill(8)] has nothing to pad, and the
    [duration] sent is not of the form [1970-01-01 HH:MM:SS]: for 86400
    seconds it is the text below. *)
Theorem C3_one_day_duration_is_not_a_clock_time :
  map (fun q => lookup "duration" (payload q))
      (snd (run (create_sla_definition "P1 resolution" "incident" 86400
                   None None None) accepting))
  = [Some (VStr "1970-01-01 1 day, 0:00:00")].
Proof. reflexivity. Qed.

(* ===================================================================== *)
(** * Further properties of the helper and the tools *)
(* ===================================================================== *)

(** ** The helper, case by case *)

(** What the helper makes of each answer of the remote end. *)
Lemma helper_normal_form (endpoint : string) (p : dict) (meth : string) ev log :
  meth = "POST" \/ meth = "GET" ->
  _make_servicenow_request endpoint p meth ev log
  = (match service ev log (request_for ev meth endpoint p) with
     | Failed c m =>
         Raised (Exc ValueError
                   (if issubclass c RequestError
                    then "Could not connect to ServiceNow: Request Error: " ++ m
                    else "Unexpected error during ServiceNow request: "
                           ++ class_name c ++ " - " ++ m))
     | Responded r =>
         if (200 <=? status_code r) && (status_code r <=? 299) then
           if status_code r =? 204 then
             Return (VDict [("status", VStr "success");
                            ("message", VStr "Operation successful (No Content)")])
           else
             match json r with
             | NotJson why =>
                 Raised (Exc ValueError
                           ("Unexpected error during ServiceNow request: "
                              ++ "JSONDecodeError - " ++ why))
             | Json (VDict body) =>
                 Return (dict_get body "result"
                           (if status_code r =? 201
                            then VDict [("status", VStr "success");
                                        ("message", VStr "Record created")]
                            else VDict []))
             | Json v =>
                 Raised (Exc ValueError
                           ("Unexpected error during ServiceNow request: "
                              ++ "AttributeError - '" ++ type_name v
                              ++ "' object has no attribute 'get'"))
             end
         else
           Raised (Exc ValueError
                     ("HTTP Error: " ++ itoa (status_code r) ++ " - " ++ text r))
     end,
     (log ++ [request_for ev meth endpoint p])%list).
Proof.
  intros Hm. unfold _make_servicenow_request.
  unfold bind at 1. cbn [SN_INSTANCE].
  unfold try_except at 1, bind at 1.
  assert (Hsend :
    (if String.eqb meth "POST"
     then client_post (rstrip "/" (instance_url ev) ++ "/" ++ endpoint) p
     else if String.eqb meth "GET"
          then client_get (rstrip "/" (instance_url ev) ++ "/" ++ endpoint) p
          else raise (Exc ValueError ("Unsupported HTTP method: " ++ meth))) ev log
    = send (request_for ev meth endpoint p) ev log).
  { destruct Hm as [-> | ->]; reflexivity. }
  rewrite Hsend. unfold send.
  destruct (service ev log (request_for ev meth endpoint p)) as [r|c m].
  - unfold bind at 1, raise_for_status.
    destruct ((200 <=? status_code r) && (status_code r <=? 299)); cbn [ret raise].
    + destruct (status_code r =? 204); [reflexivity|].
      destruct (status_code r =? 201); unfold bind, response_json;
        destruct (json r) as [[| | | | |body]|why]; reflexivity.
    + cbn [dispatch]. apply status_error_clause.
  - cbn [dispatch]. destruct (issubclass c RequestError); reflexivity.
Qed.

(** X1.  The helper either returns or raises a [ValueError]: no other
    exception leaves it, whatever the method, the remote end's answer or
    the body. *)
Theorem X1_helper_returns_or_raises_ValueError
    (endpoint : string) (p : dict) (meth : string) ev log :
  (exists v, fst (_make_servicenow_request endpoint p meth ev log) = Return v)
  \/ (exists msg,
        fst (_make_servicenow_request endpoint p meth ev log)
        = Raised (Exc ValueError msg)).
Proof.
  destruct (fst (_make_servicenow_request endpoint p meth ev log)) as [v|e] eqn:E.
  - left. eauto.
  - right. destruct (helper_raises_ValueError endpoint p meth ev log e E) as [msg ->].
    eauto.
Qed.

(** X2.  A method other than POST and GET sends nothing: the helper's own
    [ValueError] is caught by its catch-all clause and raised again under
    the "unexpected error" text. *)
Theorem X2_unsupported_method_sends_nothing
    (endpoint : string) (p : dict) (meth : string) ev log :
  meth <> "POST" -> meth <> "GET" ->
  _make_servicenow_request endpoint p meth ev log
  = (Raised (Exc ValueError
               ("Unexpected error during ServiceNow request: ValueError - "
                  ++ "Unsupported HTTP method: " ++ meth)),
     log).
Proof.
  intros Hp Hg. apply String.eqb_neq in Hp, Hg.
  unfold _make_servicenow_request.
  unfold bind at 1. cbn [SN_INSTANCE].
  unfold try_except at 1, bind at 1. rewrite Hp, Hg. reflexivity.
Qed.

Lemma X2_unsupported_method_witness :
  run (_make_servicenow_request "api/now/table/incident" [] "DELETE") accepting
  = (Raised (Exc ValueError
               ("Unexpected error during ServiceNow request: ValueError - "
                  ++ "Unsupported HTTP method: " ++ "DELETE")),
     []).
Proof.
  apply (X2_unsupported_method_sends_nothing
           "api/now/table/incident" [] "DELETE" accepting []);
    discriminate.
Defined.

(** X3.  When the transport fails, the helper raises a [ValueError] whose
    text starts "Could not connect to ServiceNow" for an
    [httpx.RequestError], and names the exception class for any other
    failure; the failure's own text follows in both cases. *)
Theorem X3_transport_failure_text
    (endpoint : string) (p : dict) (meth : string) ev log
    (c : exc_class) (m : string) :
  meth = "POST" \/ meth = "GET" ->
  service ev log (request_for ev meth endpoint p) = Failed c m ->
  (c = RequestError ->
   fst (_make_servicenow_request endpoint p meth ev log)
   = Raised (Exc ValueError
               ("Could not connect to ServiceNow: Request Error: " ++ m)))
  /\ (c <> RequestError ->
      fst (_make_servicenow_request endpoint p meth ev log)
      = Raised (Exc ValueError
                  ("Unexpected error during ServiceNow request: "
                     ++ class_name c ++ " - " ++ m))).
Proof.
  intros Hm Hs. rewrite (helper_normal_form endpoint p meth ev log Hm), Hs.
  cbn [fst]. split.
  - intros ->. reflexivity.
  - intros Hc. destruct c; try reflexivity. congruence.
Qed.

Lemma X3_transport_failure_witness :
  fst (run (_make_servicenow_request "api/now/table/incident" [] "POST") unreachable)
  = Raised (Exc ValueError
              ("Could not connect to ServiceNow: Request Error: "
                 ++ "All connection attempts failed")).
Proof.
  apply (X3_transport_failure_text "api/now/table/incident" [] "POST"
           unreachable [] RequestError "All connection attempts failed"
           (or_introl eq_refl) eq_refl).
  reflexivity.
Defined.

(** X4.  On status 204 the helper returns the fixed success mapping and
    never parses the body. *)
Theorem X4_no_content_is_success
    (endpoint : string) (p : dict) (meth : string) ev log (r : response) :
  meth = "POST" \/ meth = "GET" ->
  service ev log (request_for ev meth endpoint p) = Responded r ->
  status_code r = 204 ->
  fst (_make_servicenow_request endpoint p meth ev log)
  = Return (VDict [("status", VStr "success");
                   ("message", VStr "Operation successful (No Content)")]).
Proof.
  intros Hm Hs Hc. rewrite (helper_normal_form endpoint p meth ev log Hm), Hs, Hc.
  reflexivity.
Qed.

Lemma X4_no_content_witness :
  fst (run (_make_servicenow_request "api/now/table/incident" [] "POST") no_content)
  = Return (VDict [("status", VStr "success");
                   ("message", VStr "Operation successful (No Content)")]).
Proof.
  apply (X4_no_content_is_success "api/now/table/incident" [] "POST" no_content []
           _ (or_introl eq_refl) eq_refl eq_refl).
Defined.

(** X5.  On any other 2xx status with a JSON object as body, the helper
    returns what is under [result], whatever its type; without a [result]
    it returns the "Record created" mapping on 201 and an empty mapping
    on the other statuses. *)
Theorem X5_success_returns_result_or_default
    (endpoint : string) (p : dict) (meth : string) ev log
    (r : response) (body : dict) :
  meth = "POST" \/ meth = "GET" ->
  service ev log (request_for ev meth endpoint p) = Responded r ->
  200 <= status_code r <= 299 ->
  status_code r <> 204 ->
  json r = Json (VDict body) ->
  (forall v, lookup "result" body = Some v ->
     fst (_make_servicenow_request endpoint p meth ev log) = Return v)
  /\ (lookup "result" body = None -> status_code r = 201 ->
      fst (_make_servicenow_request endpoint p meth ev log)
      = Return (VDict [("status", VStr "success");
                       ("message", VStr "Record created")]))
  /\ (lookup "result" body = None -> status_code r <> 201 ->
      fst (_make_servicenow_request endpoint p meth ev log) = Return (VDict [])).
Proof.
  intros Hm Hs Hr Hn Hj.
  rewrite (helper_normal_form endpoint p meth ev log Hm), Hs, Hj.
  replace ((200 <=? status_code r) && (status_code r <=? 299)) with true
    by (symmetry; apply andb_true_iff; split; apply Z.leb_le; lia).
  apply Z.eqb_neq in Hn. rewrite Hn. cbn [fst]. unfold dict_get.
  repeat split.
  - intros v ->. reflexivity.
  - intros -> ->. reflexivity.
  - intros -> H1. apply Z.eqb_neq in H1. now rewrite H1.
Qed.

Lemma X5_success_witness :
  fst (run (_make_servicenow_request "api/now/table/incident" [] "POST") bare_created)
  = Return (VDict [("status", VStr "success"); ("message", VStr "Record created")]).
Proof.
  refine (proj1 (proj2 (X5_success_returns_result_or_default
                          "api/now/table/incident" [] "POST" bare_created []
                          _ [] (or_introl eq_refl) eq_refl _ _ eq_refl))
                eq_refl eq_refl).
  - simpl; lia.
  - discriminate.
Defined.

(** X6.  On a 2xx status other than 204, a body that is not JSON, or is
    JSON but not an object, makes the helper raise a [ValueError] under
    the "unexpected error" text, naming [JSONDecodeError] or
    [AttributeError]. *)
Theorem X6_success_with_unusable_body
    (endpoint : string) (p : dict) (meth : string) ev log (r : response) :
  meth = "POST" \/ meth = "GET" ->
  service ev log (request_for ev meth endpoint p) = Responded r ->
  200 <= status_code r <= 299 ->
  status_code r <> 204 ->
  (forall why, json r = NotJson why ->
     fst (_make_servicenow_request endpoint p meth ev log)
     = Raised (Exc ValueError
                 ("Unexpected error during ServiceNow request: "
                    ++ "JSONDecodeError - " ++ why)))
  /\ (forall v, json r = Json v -> (forall d, v <> VDict d) ->
      fst (_make_servicenow_request endpoint p meth ev log)
      = Raised (Exc ValueError
                  ("Unexpected error during ServiceNow request: "
                     ++ "AttributeError - '" ++ type_name v
                     ++ "' object has no attribute 'get'"))).
Proof.
  intros Hm Hs Hr Hn.
  rewrite (helper_normal_form endpoint p meth ev log Hm), Hs.
  replace ((200 <=? status_code r) && (status_code r <=? 299)) with true
    by (symmetry; apply andb_true_iff; split; apply Z.leb_le; lia).
  apply Z.eqb_neq in Hn. rewrite Hn. split.
  - intros why ->. reflexivity.
  - intros v -> Hv. destruct v; try reflexivity. exfalso. eapply Hv. reflexivity.
Qed.

Lemma X6_unusable_body_witness :
  fst (run (_make_servicenow_request "api/now/table/incident" [] "POST") login_page)
  = Raised (Exc ValueError
              ("Unexpected error during ServiceNow request: "
                 ++ "JSONDecodeError - "
                 ++ "Expecting value: line 1 column 1 (char 0)")).
Proof.
  refine (proj1 (X6_success_with_unusable_body
                   "api/now/table/incident" [] "POST" login_page []
                   _ (or_introl eq_refl) eq_refl _ _) _ eq_refl).
  - simpl; lia.
  - discriminate.
Defined.

(** ** The request URL *)





(** ** Failures at the tool boundary *)





(** An error status reaches the caller the same way, body text and all. *)
Example rejected_incident :
  fst (run (create_incident "Printer down" None None (Some "3") (Some "3")) rejecting)
  = Return ("Error creating incident: HTTP Error: 400 - " ++ error_body_text).
Proof. reflexivity. Qed.

(** ** The listing tools *)

Lemma records_hold_no_key (key : string) (recs : list dict) :
  existsb (fun x => match x with
                    | VStr s => String.eqb s key
                    | _ => false
                    end) (map VDict recs) = false.
Proof. induction recs as [|r recs IH]; simpl; [reflexivity | exact IH]. Qed.

Ltac first_call_returns H :=
  match goal with
  | |- context [_make_servicenow_request ?e ?p ?m ?ev []] =>
      let Ho := fresh "Ho" in
      let Hl := fresh "Hl" in
      assert (Hmeth : m = "POST" \/ m = "GET")
        by (first [left; reflexivity | right; reflexivity]);
      pose proof (H e p) as Ho;
      pose proof (helper_log e p m ev [] Hmeth) as Hl;
      clear Hmeth;
      destruct (_make_servicenow_request e p m ev []) as [o l];
      simpl in Ho, Hl; subst o l
  end.

(** X9.  The Table API answers a listing with status 200 and the records
    as a list under [result].  The helper returns that list, the tool
    then looks for a [result] key in it, finds none, and returns its
    "none found or error" line, however many records came back. *)
Theorem X9_listing_of_records_reports_none_found
    ev (r : response) (body : dict) (recs : list dict) (limit : Z) :
  (forall q, service ev [] q = Responded r) ->
  status_code r = 200 ->
  json r = Json (VDict body) ->
  lookup "result" body = Some (VList (map VDict recs)) ->
  fst (run (get_incidents limit) ev)
    = Return "No incidents found or error retrieving incidents."
  /\ fst (run (get_change_requests limit) ev)
    = Return "No change requests found or error retrieving change requests."
  /\ fst (run (get_users limit) ev)
    = Return "No users found or error retrieving users.".
Proof.
  intros Hs Hc Hj Hl.
  assert (H : forall endpoint p,
             fst (_make_servicenow_request endpoint p "GET" ev [])
             = Return (VList (map VDict recs))).
  { intros. rewrite helper_normal_form by (right; reflexivity).
    rewrite Hs, Hj, Hc. cbn. unfold dict_get. now rewrite Hl. }
  unfold run, get_incidents, get_change_requests, get_users, sn_get. cbv zeta.
  repeat split; unfold try_except at 1, bind at 1; first_call_returns H;
    unfold bind; cbn [truthy negb py_in ret];
    rewrite records_hold_no_key; destruct recs; reflexivity.
Qed.

Lemma X9_listing_of_records_witness :
  fst (run (get_incidents 5) listing)
    = Return "No incidents found or error retrieving incidents."
  /\ fst (run (get_change_requests 5) listing)
    = Return "No change requests found or error retrieving change requests."
  /\ fst (run (get_users 5) listing)
    = Return "No users found or error retrieving users.".
Proof.
  apply (X9_listing_of_records_reports_none_found listing
           {| status_code := 200;
              text := "";
              json := Json (VDict [("result", VList (map VDict two_incidents))]) |}
           [("result", VList (map VDict two_incidents))] two_incidents 5);
    reflexivity.
Defined.

(** X10.  When the helper hands a listing tool a mapping: without a
    [result] key the tool returns its "none found or error" line; with a
    [result] that is empty (or otherwise false) it returns its "none
    found" line.  One GET is sent in both cases. *)
Theorem X10_listing_with_nothing_to_show ev (d : dict) (limit : Z) :
  (forall endpoint p,
      fst (_make_servicenow_request endpoint p "GET" ev []) = Return (VDict d)) ->
  (lookup "result" d = None ->
   fst (run (get_incidents limit) ev)
     = Return "No incidents found or error retrieving incidents."
   /\ fst (run (get_change_requests limit) ev)
     = Return "No change requests found or error retrieving change requests."
   /\ fst (run (get_users limit) ev)
     = Return "No users found or error retrieving users.")
  /\ (forall v, lookup "result" d = Some v -> truthy v = false ->
      fst (run (get_incidents limit) ev) = Return "No incidents found."
      /\ fst (run (get_change_requests limit) ev)
         = Return "No change requests found."
      /\ fst (run (get_users limit) ev) = Return "No users found.").
Proof.
  intros H.
  unfold run, get_incidents, get_change_requests, get_users, sn_get. cbv zeta.
  split.
  - intros Hn.
    repeat split; unfold try_except at 1, bind at 1; first_call_returns H;
      unfold bind; cbn [truthy negb py_in ret]; unfold has_key; rewrite Hn;
      destruct d; reflexivity.
  - intros v Hv Ht.
    assert (Hd : truthy (VDict d) = true) by (destruct d; [discriminate | reflexivity]).
    repeat split; unfold try_except at 1, bind at 1; first_call_returns H;
      unfold bind; rewrite Hd; cbn [negb py_in ret subscript]; unfold has_key;
      rewrite Hv; cbn [negb ret]; rewrite Ht; reflexivity.
Qed.

Lemma X10_listing_with_nothing_witness :
  fst (run (get_incidents 5) no_content)
    = Return "No incidents found or error retrieving incidents."
  /\ fst (run (get_change_requests 5) no_content)
    = Return "No change requests found or error retrieving change requests."
  /\ fst (run (get_users 5) no_content)
    = Return "No users found or error retrieving users.".
Proof.
  apply (X10_listing_with_nothing_to_show no_content
           [("status", VStr "success");
            ("message", VStr "Operation successful (No Content)")] 5).
  - intros endpoint p. reflexivity.
  - reflexivity.
Defined.

Lemma for_each_records (body : value -> M string) (line : dict -> string)
      (recs : list dict) ev log :
  (forall r, body (VDict r) ev log = (Return (line r), log)) ->
  forall acc,
    for_each body (map VDict recs) acc ev log
    = (Return (acc ++ map line recs)%list, log).
Proof.
  intros Hb. induction recs as [|r recs IH]; intros acc; simpl.
  - now rewrite app_nil_r.
  - unfold bind. rewrite Hb, IH, <- app_assoc. reflexivity.
Qed.

(** X11.  When the helper hands a listing tool a mapping whose [result]
    is a non-empty list of records, the tool returns a count line and one
    bullet line per record, in order; a field missing from a record reads
    [N/A] (or [No description], [No name]). *)
Theorem X11_listing_formats_one_line_per_record
    ev (d : dict) (r0 : dict) (recs : list dict) (limit : Z) :
  (forall endpoint p,
      fst (_make_servicenow_request endpoint p "GET" ev []) = Return (VDict d)) ->
  lookup "result" d = Some (VList (map VDict (r0 :: recs))) ->
  let count := itoa (Z.of_nat (List.length (r0 :: recs))) in
  let field r k dflt := str (dict_get r k (VStr dflt)) in
  fst (run (get_incidents limit) ev)
    = Return ("Retrieved " ++ count ++ " incidents:" ++ nl
                ++ join nl (map (fun r =>
                     bullet ++ " " ++ field r "number" "N/A" ++ ": "
                       ++ field r "short_description" "No description"
                       ++ " (State: " ++ field r "state" "N/A"
                       ++ ", Priority: " ++ field r "priority" "N/A" ++ ")")
                     (r0 :: recs)))
  /\ fst (run (get_change_requests limit) ev)
    = Return ("Retrieved " ++ count ++ " change requests:" ++ nl
                ++ join nl (map (fun r =>
                     bullet ++ " " ++ field r "number" "N/A" ++ ": "
                       ++ field r "short_description" "No description"
                       ++ " (State: " ++ field r "state" "N/A"
                       ++ ", Risk: " ++ field r "risk" "N/A" ++ ")")
                     (r0 :: recs)))
  /\ fst (run (get_users limit) ev)
    = Return ("Retrieved " ++ count ++ " users:" ++ nl
                ++ join nl (map (fun r =>
                     bullet ++ " " ++ field r "user_name" "N/A" ++ ": "
                       ++ field r "name" "No name"
                       ++ " (Email: " ++ field r "email" "N/A"
                       ++ ", Active: " ++ field r "active" "N/A" ++ ")")
                     (r0 :: recs))).
Proof.
  intros H Hr count field.
  assert (Hd : truthy (VDict d) = true)
    by (destruct d; [discriminate | reflexivity]).
  unfold run, get_incidents, get_change_requests, get_users, sn_get. cbv zeta.
  repeat split; unfold try_except at 1, bind at 1; first_call_returns H;
    unfold bind at 1; rewrite Hd; cbn [negb]; unfold bind at 1;
    cbn [py_in ret]; unfold has_key; rewrite Hr; cbn [negb];
    unfold bind at 1; cbn [subscript]; rewrite Hr; cbn [ret];
    change (truthy (VList (map VDict (r0 :: recs)))) with true; cbn [negb];
    unfold bind at 1; cbn [iterate ret]; unfold bind at 1;
    match goal with
    | |- context [for_each ?b (map VDict (r0 :: recs)) [] ev ?l] =>
        rewrite (for_each_records b _ (r0 :: recs) ev l (fun r => eq_refl) [])
    end;
    cbn [ret app fst]; rewrite length_map; reflexivity.
Qed.

Lemma X11_listing_formats_witness :
  fst (run (get_incidents 5) nested_listing)
  = Return ("Retrieved 2 incidents:" ++ nl
              ++ bullet ++ " INC0010001: Printer down (State: New, Priority: 3 - Moderate)"
              ++ nl
              ++ bullet ++ " INC0010002: No description (State: N/A, Priority: N/A)").
Proof.
  refine (proj1 (X11_listing_formats_one_line_per_record nested_listing
                   [("result", VList (map VDict two_incidents))]
                   [("number", VStr "INC0010001");
                    ("short_description", VStr "Printer down");
                    ("state", VStr "New"); ("priority", VStr "3 - Moderate")]
                   [[("number", VStr "INC0010002")]] 5 _ eq_refl)).
  intros endpoint p. reflexivity.
Defined.

(** ** The composite tools, further *)



Lemma build_var_payload_fields parent_field sid idx var_def ev log :
  type_is_name var_def ->
  parent_field = "cat_item" \/ parent_field = "variable_set" ->
  exists p,
    build_var_payload parent_field sid idx var_def ev log = (Return p, log)
    /\ lookup parent_field p = Some sid
    /\ lookup "order" p = Some (VInt ((idx + 1) * 100))
    /\ lookup "name" p = Some (var_name idx var_def).
Proof.
  intros Ht Hp. unfold build_var_payload.
  assert (E : exists k1 k2,
             dict_get var_def "type" (VStr "string") = VStr k1
             /\ dict_get var_def "type" (VStr "") = VStr k2).
  { unfold dict_get at 1 2.
    destruct Ht as [-> | [s ->]]; eauto. }
  destruct E as (k1 & k2 & -> & ->).
  unfold bind. cbn [get_lower ret].
  eexists. split; [reflexivity|].
  destruct (String.eqb (lower k2) "reference" && has_key "reference_table" var_def);
    destruct (has_key "default_value" var_def);
    destruct Hp as [-> | ->];
    rewrite ?lookup_dict_set_other by reflexivity;
    repeat split; reflexivity.
Qed.

Lemma add_variable_sends_fields endpoint parent_field sid idx var_def ev log :
  parent_field = "cat_item" \/ parent_field = "variable_set" ->
  type_is_name var_def ->
  exists q,
    snd (add_variable endpoint parent_field sid idx var_def ev log) = (log ++ [q])%list
    /\ variable_payload ev endpoint parent_field sid idx var_def q.
Proof.
  intros Hp Ht.
  destruct (build_var_payload_fields parent_field sid idx var_def ev log Ht Hp)
    as (p & Hb & Hparent & Horder & Hname).
  exists (request_for ev "POST" endpoint p).
  split; [|repeat split; assumption].
  unfold add_variable.
  rewrite try_silent_log
    by apply (silent_on_ret ValueError
                (fun e => "Error adding variable '"
                            ++ str (var_name idx var_def) ++ "': " ++ e)).
  unfold bind at 1. rewrite Hb.
  rewrite bind_silent_log by (intros; silence).
  apply helper_log. left; reflexivity.
Qed.

Lemma variable_loop_fields endpoint parent_field sid ev defs :
  parent_field = "cat_item" \/ parent_field = "variable_set" ->
  forall log idx acc, exists qs,
    snd (for_each_indexed (add_variable endpoint parent_field sid) idx defs acc ev log)
    = (log ++ qs)%list
    /\ forall i q, nth_error qs i = Some q ->
         exists var_def,
           nth_error defs i = Some var_def
           /\ variable_payload ev endpoint parent_field sid
                (idx + Z.of_nat i) var_def q.
Proof.
  intros Hp. induction defs as [|var_def defs IH]; intros log idx acc.
  - exists []. simpl. rewrite app_nil_r. split; [reflexivity|].
    intros [|i] q H; discriminate.
  - cbn [for_each_indexed]. rewrite snd_bind.
    destruct (type_is_name_dec var_def) as [Ht | Hn].
    + destruct (add_variable_sends_fields endpoint parent_field sid idx var_def
                  ev log Hp Ht) as (q0 & Hlog & Hq0).
      destruct (add_variable endpoint parent_field sid idx var_def ev log)
        as [[line|e] log'] eqn:Erun; simpl in Hlog; subst log'.
      * destruct (IH (log ++ [q0])%list (idx + 1) (acc ++ [line])%list)
          as (qs & Hrest & Hqs).
        exists (q0 :: qs). rewrite Hrest, <- app_assoc. split; [reflexivity|].
        intros [|i] q H.
        -- inversion H; subst q. exists var_def. split; [reflexivity|].
           now replace (idx + Z.of_nat 0) with idx by lia.
        -- destruct (Hqs i q H) as (d & Hd & Hpay). exists d. split; [exact Hd|].
           now replace (idx + Z.of_nat (S i)) with (idx + 1 + Z.of_nat i) by lia.
      * exists [q0]. split; [reflexivity|].
        intros [|[|i]] q H; try discriminate.
        inversion H; subst q. exists var_def. split; [reflexivity|].
        now replace (idx + Z.of_nat 0) with idx by lia.
    + destruct (add_variable_untyped endpoint parent_field sid idx var_def
                  ev log Hn) as (e & ->).
      exists []. rewrite app_nil_r. split; [reflexivity|].
      intros [|i] q H; discriminate.
Qed.

Lemma variable_set_loop_exact sid ev ids :
  forall log acc, exists k,
    snd (for_each (add_variable_set sid) ids acc ev log)
    = (log ++ map (attachment ev sid) (firstn k ids))%list.
Proof.
  induction ids as [|set_id ids IH]; intros log acc.
  - exists O. simpl. now rewrite app_nil_r.
  - cbn [for_each]. rewrite snd_bind.
    pose proof (add_variable_set_log sid set_id ev log) as Hlog.
    destruct (add_variable_set sid set_id ev log) as [[line|e] log'];
      simpl in Hlog; subst log'.
    + destruct (IH (log ++ [attachment ev sid set_id])%list (acc ++ [line])%list)
        as (k & Hrest).
      exists (S k). unfold attachment in *. rewrite Hrest, <- app_assoc. reflexivity.
    + exists 1%nat. reflexivity.
Qed.

Lemma variable_lines_length ev endpoint defs :
  forall log idx qs lines,
    variable_lines ev endpoint log idx defs qs lines ->
    List.length qs = List.length defs.
Proof.
  induction defs as [|d defs IH]; intros log idx [|q qs] [|line lines] H;
    simpl in H; try contradiction; try reflexivity.
  destruct H as (_ & _ & H). simpl. f_equal. eapply IH. eassumption.
Qed.

Lemma variable_set_lines_length ev ids :
  forall log qs lines,
    variable_set_lines ev log ids qs lines -> List.length qs = List.length ids.
Proof.
  induction ids as [|d ids IH]; intros log [|q qs] [|line lines] H;
    simpl in H; try contradiction; try reflexivity.
  destruct H as (_ & _ & H). simpl. f_equal. eapply IH. eassumption.
Qed.

Lemma firstn_full {A} (l : list A) :
  forall k, List.length (firstn k l) = List.length l -> firstn k l = l.
Proof.
  induction l as [|x l IH]; intros [|k] H; simpl in *;
    try reflexivity; try discriminate.
  f_equal. apply IH. congruence.
Qed.

(** With mapping results and type names the variable loop runs to its
    end: one request per definition, in order, each with the table's code
    and the parent's [sys_id]. *)
Lemma variable_loop_complete endpoint parent_field sid ev defs :
  results_are_mappings ev ->
  Forall type_is_name defs ->
  parent_field = "cat_item" \/ parent_field = "variable_set" ->
  forall log idx acc, exists qs lines,
    for_each_indexed (add_variable endpoint parent_field sid) idx defs acc ev log
    = (Return (acc ++ lines)%list, (log ++ qs)%list)
    /\ List.length qs = List.length defs
    /\ Forall2 (variable_request ev endpoint) defs qs
    /\ forall i var_def, nth_error defs i = Some var_def ->
         exists q,
           nth_error qs i = Some q
           /\ variable_payload ev endpoint parent_field sid
                (idx + Z.of_nat i) var_def q.
Proof.
  intros Hm Hd Hp log idx acc.
  destruct (variable_loop_run endpoint parent_field sid ev defs Hm Hd log idx acc)
    as (qs & lines & Hrun & Hlines).
  destruct (variable_loop_log endpoint parent_field sid ev defs Hp log idx acc)
    as (qs1 & Hlog1 & Hty).
  destruct (variable_loop_fields endpoint parent_field sid ev defs Hp log idx acc)
    as (qs2 & Hlog2 & Hf).
  rewrite Hrun in Hlog1, Hlog2. cbn [snd] in Hlog1, Hlog2.
  apply app_inv_head in Hlog1, Hlog2. subst qs1 qs2.
  pose proof (variable_lines_length ev endpoint defs log idx qs lines Hlines) as Hlen.
  exists qs, lines. split; [exact Hrun|]. split; [exact Hlen|]. split.
  - rewrite Hlen, firstn_all in Hty. exact Hty.
  - intros i var_def Hi.
    destruct (nth_error qs i) as [q|] eqn:Eq.
    + exists q. split; [reflexivity|].
      destruct (Hf i q Eq) as (d & Hd' & Hpay). congruence.
    + exfalso. apply nth_error_None in Eq.
      assert (i < List.length defs)%nat by (apply nth_error_Some; congruence).
      lia.
Qed.

(** With mapping results every requested variable set is attached. *)
Lemma variable_set_loop_complete sid ev ids :
  results_are_mappings ev ->
  forall log acc, exists lines,
    for_each (add_variable_set sid) ids acc ev log
    = (Return (acc ++ lines)%list, (log ++ map (attachment ev sid) ids)%list).
Proof.
  intros Hm log acc.
  destruct (variable_set_loop_run sid ev ids Hm log acc)
    as (qs & lines & Hrun & Hlines).
  destruct (variable_set_loop_exact sid ev ids log acc) as (k & Hk).
  rewrite Hrun in Hk. cbn [snd] in Hk. apply app_inv_head in Hk.
  pose proof (variable_set_lines_length ev ids log qs lines Hlines) as Hlen.
  exists lines. rewrite Hrun. f_equal. f_equal.
  rewrite Hk in Hlen. rewrite length_map in Hlen.
  rewrite Hk. now rewrite (firstn_full ids k Hlen).
Qed.

(** The requests of a full run of [create_record_producer]. *)
Lemma create_record_producer_log
    (name table_name : string)
    (short_description category_sys_id script : option string)
    (variables : option (list dict)) (variable_set_ids : option (list string))
    ev (res : dict) :
  results_are_mappings ev ->
  Forall type_is_name (items variables) ->
  (forall endpoint p,
      fst (_make_servicenow_request endpoint p "POST" ev []) = Return (VDict res)) ->
  truthy (dict_get res "sys_id" (VStr "")) = true ->
  let sid := dict_get res "sys_id" (VStr "") in
  exists q0 var_qs,
    snd (run (create_record_producer name table_name short_description
                category_sys_id script variables variable_set_ids) ev)
    = (q0 :: map (attachment ev sid) (items variable_set_ids) ++ var_qs)%list
    /\ List.length var_qs = List.length (items variables)
    /\ Forall2 (variable_request ev "api/now/table/item_option_new")
         (items variables) var_qs
    /\ forall i var_def, nth_error (items variables) i = Some var_def ->
         exists q,
           nth_error var_qs i = Some q
           /\ variable_payload ev "api/now/table/item_option_new" "cat_item"
                sid (Z.of_nat i) var_def q.
Proof.
  intros Hm Hd Hparent Hid sid.
  unfold run, create_record_producer. cbv zeta.
  rewrite try_silent_log
    by apply (silent_on_ret ValueError
                (fun e => "Error creating Record Producer: " ++ e)).
  rewrite snd_bind.
  match goal with
  | |- context [_make_servicenow_request ?e ?p "POST" ev []] =>
      pose proof (Hparent e p) as Ho;
      pose proof (helper_log e p "POST" ev [] (or_introl eq_refl)) as Hl;
      set (q0 := request_for ev "POST" e p) in *;
      exists q0;
      destruct (_make_servicenow_request e p "POST" ev []) as [o log']
  end.
  simpl in Ho, Hl. subst o log'.
  rewrite snd_bind. cbn [get ret]. rewrite snd_bind. cbn [ret]. fold sid.
  fold sid in Hid. rewrite Hid. cbn [negb].
  rewrite guarded_for_each, guarded_for_each_indexed.
  rewrite snd_bind.
  destruct (variable_set_loop_complete sid ev (items variable_set_ids) Hm [q0] [])
    as (set_lines & Hsets).
  rewrite Hsets.
  rewrite bind_silent_log by (intros; silence).
  destruct (variable_loop_complete "api/now/table/item_option_new" "cat_item" sid ev
              (items variables) Hm Hd (or_introl eq_refl)
              ([q0] ++ map (attachment ev sid) (items variable_set_ids))%list 0 [])
    as (var_qs & var_lines & Hvars & Hlen & Hty & Hf).
  exists var_qs. rewrite Hvars. cbn [snd app].
  split; [reflexivity|]. split; [exact Hlen|]. split; [exact Hty|].
  intros i var_def Hi. destruct (Hf i var_def Hi) as (q & Hq & Hpay). eauto.
Qed.

(** The requests of a full run of [create_variable_set]. *)
Lemma create_variable_set_log
    (name : string) (description : option string)
    (variables : option (list dict)) ev (res : dict) :
  results_are_mappings ev ->
  Forall type_is_name (items variables) ->
  (forall endpoint p,
      fst (_make_servicenow_request endpoint p "POST" ev []) = Return (VDict res)) ->
  truthy (dict_get res "sys_id" (VStr "")) = true ->
  let sid := dict_get res "sys_id" (VStr "") in
  exists q0 var_qs,
    snd (run (create_variable_set name description variables) ev) = q0 :: var_qs
    /\ List.length var_qs = List.length (items variables)
    /\ Forall2 (variable_request ev "api/now/table/io_set_variable")
         (items variables) var_qs
    /\ forall i var_def, nth_error (items variables) i = Some var_def ->
         exists q,
           nth_error var_qs i = Some q
           /\ variable_payload ev "api/now/table/io_set_variable" "variable_set"
                sid (Z.of_nat i) var_def q.
Proof.
  intros Hm Hd Hparent Hid sid.
  unfold run, create_variable_set. cbv zeta.
  rewrite try_silent_log
    by apply (silent_on_ret ValueError
                (fun e => "Error creating Variable Set: " ++ e)).
  rewrite snd_bind.
  match goal with
  | |- context [_make_servicenow_request ?e ?p "POST" ev []] =>
      pose proof (Hparent e p) as Ho;
      pose proof (helper_log e p "POST" ev [] (or_introl eq_refl)) as Hl;
      set (q0 := request_for ev "POST" e p) in *;
      exists q0;
      destruct (_make_servicenow_request e p "POST" ev []) as [o log']
  end.
  simpl in Ho, Hl. subst o log'.
  rewrite snd_bind. cbn [get ret]. rewrite snd_bind. cbn [ret]. fold sid.
  fold sid in Hid. rewrite Hid. cbn [negb].
  rewrite guarded_for_each_indexed.
  rewrite bind_silent_log by (intros; silence).
  destruct (variable_loop_complete "api/now/table/io_set_variable" "variable_set"
              sid ev (items variables) Hm Hd (or_intror eq_refl) [q0] 0 [])
    as (var_qs & var_lines & Hvars & Hlen & Hty & Hf).
  exists var_qs. rewrite Hvars. cbn [snd app].
  split; [reflexivity|]. split; [exact Hlen|]. split; [exact Hty|].
  intros i var_def Hi. destruct (Hf i var_def Hi) as (q & Hq & Hpay). eauto.
Qed.

Lemma variable_request_cases ev endpoint var_def q :
  variable_request ev endpoint var_def q ->
  (forall s, declared_type var_def = Some s -> lower s = "boolean" ->
     lookup "type" (payload q) = Some (VStr "6"))
  /\ (forall s, declared_type var_def = Some s -> ~ In (lower s) type_names ->
      lookup "type" (payload q) = Some (VStr "2"))
  /\ (declared_type var_def = None ->
      lookup "type" (payload q) = Some (VStr "2")).
Proof.
  intros (_ & _ & Hty). repeat split.
  - intros s Hs Hl. rewrite Hty, Hs. unfold spec_type_code. cbv zeta.
    now rewrite Hl.
  - intros s Hs Hn. rewrite Hty, Hs. now rewrite spec_type_code_unknown.
  - intros Hn. now rewrite Hty, Hn.
Qed.

(** C8.  Once the parent creation has returned a non-empty [sys_id],
    [create_record_producer] and [create_variable_set] send one variable
    creation for each definition, in order, after the parent creation (and
    the attachments), and each has as [type] the table's code for its
    definition's type name compared without regard to case: ["6"] for
    [boolean], the string code ["2"] for a name outside the table or a
    definition without [type].  (The helper's results are mappings, a
    [type] that is present is a name, and the values reaching a payload
    are ones [json.dumps] can write.) *)
Theorem C8_variable_type_code
    (name table_name : string)
    (short_description category_sys_id script description : option string)
    (variables : option (list dict)) (variable_set_ids : option (list string))
    ev (res : dict) :
  results_are_mappings ev ->
  Forall type_is_name (items variables) ->
  Forall (fun var_def => json_safe (VDict var_def) = true) (items variables) ->
  (forall endpoint p,
      fst (_make_servicenow_request endpoint p "POST" ev []) = Return (VDict res)) ->
  truthy (dict_get res "sys_id" (VStr "")) = true ->
  json_safe (dict_get res "sys_id" (VStr "")) = true ->
  let coded endpoint var_def q :=
    variable_request ev endpoint var_def q
    /\ (forall s, declared_type var_def = Some s -> lower s = "boolean" ->
        lookup "type" (payload q) = Some (VStr "6"))
    /\ (forall s, declared_type var_def = Some s -> ~ In (lower s) type_names ->
        lookup "type" (payload q) = Some (VStr "2"))
    /\ (declared_type var_def = None ->
        lookup "type" (payload q) = Some (VStr "2")) in
  (exists q0 set_qs var_qs,
     snd (run (create_record_producer name table_name short_description
                 category_sys_id script variables variable_set_ids) ev)
     = (q0 :: set_qs ++ var_qs)%list
     /\ List.length set_qs = List.length (items variable_set_ids)
     /\ Forall2 (coded "api/now/table/item_option_new") (items variables) var_qs)
  /\ (exists q0 var_qs,
     snd (run (create_variable_set name description variables) ev)
     = (q0 :: var_qs)%list
     /\ Forall2 (coded "api/now/table/io_set_variable") (items variables) var_qs).
Proof.
  intros Hm Hd _ Hparent Hid _ coded.
  assert (Hcoded : forall endpoint defs qs,
             Forall2 (variable_request ev endpoint) defs qs ->
             Forall2 (coded endpoint) defs qs).
  { intros endpoint defs qs. apply Forall2_impl. intros d q H.
    split; [exact H | exact (variable_request_cases ev endpoint d q H)]. }
  split.
  - destruct (create_record_producer_log name table_name short_description
                category_sys_id script variables variable_set_ids ev res
                Hm Hd Hparent Hid) as (q0 & var_qs & Hlog & _ & Hty & _).
    exists q0, (map (attachment ev (dict_get res "sys_id" (VStr "")))
                    (items variable_set_ids)), var_qs.
    split; [exact Hlog|]. split; [apply length_map | auto].
  - destruct (create_variable_set_log name description variables ev res
                Hm Hd Hparent Hid) as (q0 & var_qs & Hlog & _ & Hty & _).
    exists q0, var_qs. split; [exact Hlog | auto].
Qed.

Lemma typed_variables_are_names : Forall type_is_name (items typed_variables).
Proof.
  repeat (apply Forall_cons;
          [first [right; eexists; reflexivity | left; reflexivity]|]).
  apply Forall_nil.
Defined.

Lemma C8_variable_type_code_witness :
  exists q0 q1 q2 q3,
    snd (run (create_variable_set "Laptop details" None typed_variables) flaky)
    = [q0; q1; q2; q3]
    /\ lookup "type" (payload q1) = Some (VStr "6")
    /\ lookup "type" (payload q2) = Some (VStr "2")
    /\ lookup "type" (payload q3) = Some (VStr "2").
Proof.
  destruct (C8_variable_type_code
              "Laptop details" "incident" None None None None
              typed_variables None flaky
              [("name", VStr "Request laptop"); ("sys_id", VStr "46d44a5dc0a8010e")]
              flaky_results_are_mappings typed_variables_are_names)
    as (_ & q0 & var_qs & Hlog & Hall).
  - repeat (apply Forall_cons; [reflexivity|]). apply Forall_nil.
  - intros endpoint p. reflexivity.
  - reflexivity.
  - reflexivity.
  - inversion Hall as [|d1 q1 l1 r1 (H1 & _) Hall1]; subst.
    inversion Hall1 as [|d2 q2 l2 r2 (H2 & _) Hall2]; subst.
    inversion Hall2 as [|d3 q3 l3 r3 (H3 & _) Hall3]; subst.
    inversion Hall3; subst.
    exists q0, q1, q2, q3. split; [exact Hlog|].
    destruct H1 as (_ & _ & T1), H2 as (_ & _ & T2), H3 as (_ & _ & T3).
    repeat split; assumption.
Defined.

(** X13.  In a full run of [create_record_producer] (non-empty parent
    [sys_id], mapping results, type names, values [json.dumps] can write)
    the requests after the parent creation are the attachments of all the
    requested variable sets, in order, each naming the parent's [sys_id]
    as [sc_cat_item]; then one variable creation per definition, the i-th
    of which names that [sys_id] as [cat_item], has [order]
    [(i + 1) * 100] and the definition's name (or [variable_<i>]). *)
Theorem X13_producer_dependents_reference_parent
    (name table_name : string)
    (short_description category_sys_id script : option string)
    (variables : option (list dict)) (variable_set_ids : option (list string))
    ev (res : dict) :
  results_are_mappings ev ->
  Forall type_is_name (items variables) ->
  Forall (fun var_def => json_safe (VDict var_def) = true) (items variables) ->
  (forall endpoint p,
      fst (_make_servicenow_request endpoint p "POST" ev []) = Return (VDict res)) ->
  truthy (dict_get res "sys_id" (VStr "")) = true ->
  json_safe (dict_get res "sys_id" (VStr "")) = true ->
  let sid := dict_get res "sys_id" (VStr "") in
  exists q0 var_qs,
    snd (run (create_record_producer name table_name short_description
                category_sys_id script variables variable_set_ids) ev)
    = (q0 :: map (attachment ev sid) (items variable_set_ids) ++ var_qs)%list
    /\ List.length var_qs = List.length (items variables)
    /\ forall i var_def, nth_error (items variables) i = Some var_def ->
         exists q,
           nth_error var_qs i = Some q
           /\ variable_payload ev "api/now/table/item_option_new" "cat_item"
                sid (Z.of_nat i) var_def q.
Proof.
  intros Hm Hd _ Hparent Hid _ sid.
  destruct (create_record_producer_log name table_name short_description
              category_sys_id script variables variable_set_ids ev res
              Hm Hd Hparent Hid) as (q0 & var_qs & Hlog & Hlen & _ & Hf).
  exists q0, var_qs. auto.
Qed.

Lemma two_variables_are_names : Forall type_is_name (items two_variables).
Proof.
  repeat (apply Forall_cons; [right; eexists; reflexivity|]). apply Forall_nil.
Defined.

Lemma X13_producer_dependents_witness :
  exists q0 var_qs,
    snd (run (create_record_producer "Request laptop" "incident" None None None
                two_variables (Some ["0a1b2c"])) flaky)
    = (q0 :: map (attachment flaky (VStr "46d44a5dc0a8010e")) ["0a1b2c"]
          ++ var_qs)%list
    /\ List.length var_qs = 2%nat
    /\ forall i var_def, nth_error (items two_variables) i = Some var_def ->
         exists q,
           nth_error var_qs i = Some q
           /\ variable_payload flaky "api/now/table/item_option_new" "cat_item"
                (VStr "46d44a5dc0a8010e") (Z.of_nat i) var_def q.
Proof.
  apply (X13_producer_dependents_reference_parent
           "Request laptop" "incident" None None None two_variables
           (Some ["0a1b2c"]) flaky
           [("name", VStr "Request laptop"); ("sys_id", VStr "46d44a5dc0a8010e")]
           flaky_results_are_mappings two_variables_are_names).
  - repeat (apply Forall_cons; [reflexivity|]). apply Forall_nil.
  - intros endpoint p. reflexivity.
  - reflexivity.
  - reflexivity.
Defined.

(** The whole log of such a run: parent, attachment, two variables. *)
Example producer_requests_in_order :
  map (fun q => (url q, lookup "order" (payload q)))
      (snd (run (create_record_producer "Request laptop" "incident" None None None
                   two_variables (Some ["0a1b2c"])) accepting))
  = [("https://dev.example.com/api/now/table/sc_cat_item_producer", None);
     ("https://dev.example.com/api/now/table/io_set_item", None);
     ("https://dev.example.com/api/now/table/item_option_new", Some (VInt 100));
     ("https://dev.example.com/api/now/table/item_option_new", Some (VInt 200))].
Proof. reflexivity. Qed.

(** X14.  In a full run of [create_variable_set] (non-empty parent
    [sys_id], mapping results, type names, values [json.dumps] can write)
    the requests after the parent creation are one variable creation per
    definition and nothing else: the i-th names the parent's [sys_id] as
    [variable_set], has [order] [(i + 1) * 100] and the definition's name
    (or [variable_<i>]). *)
Theorem X14_variable_set_dependents_reference_parent
    (name : string) (description : option string)
    (variables : option (list dict)) ev (res : dict) :
  results_are_mappings ev ->
  Forall type_is_name (items variables) ->
  Forall (fun var_def => json_safe (VDict var_def) = true) (items variables) ->
  (forall endpoint p,
      fst (_make_servicenow_request endpoint p "POST" ev []) = Return (VDict res)) ->
  truthy (dict_get res "sys_id" (VStr "")) = true ->
  json_safe (dict_get res "sys_id" (VStr "")) = true ->
  let sid := dict_get res "sys_id" (VStr "") in
  exists q0 var_qs,
    snd (run (create_variable_set name description variables) ev) = q0 :: var_qs
    /\ List.length var_qs = List.length (items variables)
    /\ forall i var_def, nth_error (items variables) i = Some var_def ->
         exists q,
           nth_error var_qs i = Some q
           /\ variable_payload ev "api/now/table/io_set_variable" "variable_set"
                sid (Z.of_nat i) var_def q.
Proof.
  intros Hm Hd _ Hparent Hid _ sid.
  destruct (create_variable_set_log name description variables ev res
              Hm Hd Hparent Hid) as (q0 & var_qs & Hlog & Hlen & _ & Hf).
  exists q0, var_qs. auto.
Qed.

Lemma X14_variable_set_dependents_witness :
  exists q0 var_qs,
    snd (run (create_variable_set "Laptop details" None two_variables) flaky)
    = q0 :: var_qs
    /\ List.length var_qs = 2%nat
    /\ forall i var_def, nth_error (items two_variables) i = Some var_def ->
         exists q,
           nth_error var_qs i = Some q
           /\ variable_payload flaky "api/now/table/io_set_variable"
                "variable_set" (VStr "46d44a5dc0a8010e") (Z.of_nat i) var_def q.
Proof.
  apply (X14_variable_set_dependents_reference_parent
           "Laptop details" None two_variables flaky
           [("name", VStr "Request laptop"); ("sys_id", VStr "46d44a5dc0a8010e")]
           flaky_results_are_mappings two_variables_are_names).
  - repeat (apply Forall_cons; [reflexivity|]). apply Forall_nil.
  - intros endpoint p. reflexivity.
  - reflexivity.
  - reflexivity.
Defined.

(** ** The single-call creation tools *)

Ltac one_post :=
  rewrite try_silent_log by (apply silent_on_ret);
  rewrite bind_silent_log by (intros; silence);
  rewrite helper_log by (left; reflexivity).

Ltac by_presence o :=
  unfold sent_if_given, given; destruct o as [s|]; cbn [of_opt truthy];
  [destruct (String.eqb s "")|]; reflexivity.

(** X15.  Whatever the remote end answers, each single-call creation tool
    sends exactly one request, a POST to its own table (for
    [create_client_script] once its validation has passed, for
    [create_business_rule] when [order] is an [int] that [json.dumps] can
    write, for [create_sla_definition] when the duration does not
    overflow).  An optional [caller_id], [kb_knowledge_base], [field_name]
    or SLA condition is a key of the payload only when given and not
    empty. *)
Theorem X15_single_call_tools_post_once ev :
  (forall sd desc caller urg imp, exists p,
      snd (run (create_incident sd desc caller urg imp) ev)
      = [request_for ev "POST" "api/now/table/incident" p]
      /\ lookup "caller_id" p = sent_if_given caller)
  /\ (forall sd art kb wf, exists p,
      snd (run (create_kb_article sd art kb wf) ev)
      = [request_for ev "POST" "api/now/table/kb_knowledge" p]
      /\ lookup "kb_knowledge_base" p = sent_if_given kb)
  /\ (forall name table script ui ty field act,
      String.eqb ty "onChange" && negb (given field) = false ->
      exists p,
        snd (run (create_client_script name table script ui ty field act) ev)
        = [request_for ev "POST" "api/now/table/sys_script_client" p]
        /\ lookup "field_name" p = sent_if_given field)
  /\ (forall name table script when order ins upd del qry act,
      Z.abs order < int_digits_limit ->
      exists p,
        snd (run (create_business_rule name table script when order
                    ins upd del qry act) ev)
        = [request_for ev "POST" "api/now/table/sys_script" p]
        /\ lookup "order" p = Some (VInt order))
  /\ (forall name table secs start stop pause,
      Z.abs (secs / 86400) <= max_delta_days ->
      exists p,
        snd (run (create_sla_definition name table secs start stop pause) ev)
        = [request_for ev "POST" "api/now/table/contract_sla" p]
        /\ lookup "start_condition" p = sent_if_given start
        /\ lookup "stop_condition" p = sent_if_given stop
        /\ lookup "pause_condition" p = sent_if_given pause).
Proof.
  unfold run. repeat match goal with |- _ /\ _ => split end.
  - intros. unfold create_incident. cbv zeta. eexists. split.
    + one_post. reflexivity.
    + by_presence caller.
  - intros. unfold create_kb_article. cbv zeta. eexists. split.
    + one_post. reflexivity.
    + by_presence kb.
  - intros name table script ui ty field act Hv.
    unfold create_client_script. rewrite Hv. cbv zeta. eexists. split.
    + one_post. reflexivity.
    + by_presence field.
  - intros. unfold create_business_rule. cbv zeta. eexists. split.
    + one_post. reflexivity.
    + reflexivity.
  - intros name table secs start stop pause Hd.
    unfold create_sla_definition. cbv zeta.
    rewrite snd_bind. unfold timedelta_seconds, timedelta_of_seconds.
    destruct (Z.gtb_spec (Z.abs (secs / 86400)) max_delta_days); [lia|].
    cbn [ret]. eexists. split; [one_post; reflexivity|].
    unfold sent_if_given, given.
    destruct start as [s1|], stop as [s2|], pause as [s3|]; cbn [of_opt truthy];
      try destruct (String.eqb s1 ""); try destruct (String.eqb s2 "");
      try destruct (String.eqb s3 ""); repeat split; reflexivity.
Qed.

Lemma X15_single_call_tools_witness :
  (exists p,
     snd (run (create_business_rule "stamp" "incident" "current.update();"
                 "before" 100 true true false false true) accepting)
     = [request_for accepting "POST" "api/now/table/sys_script" p]
     /\ lookup "order" p = Some (VInt 100))
  /\ (exists p,
     snd (run (create_sla_definition "P1 resolution" "incident" 28800
                 (Some "priority=1") None (Some "")) accepting)
     = [request_for accepting "POST" "api/now/table/contract_sla" p]
     /\ lookup "start_condition" p = Some (VStr "priority=1")
     /\ lookup "stop_condition" p = None
     /\ lookup "pause_condition" p = None).
Proof.
  destruct (X15_single_call_tools_post_once accepting)
    as (_ & _ & _ & Hrule & Hsla).
  split.
  - apply (Hrule "stamp" "incident" "current.update();" "before" 100
             true true false false true).
    pose proof int_digits_limit_positive. simpl. lia.
  - apply (Hsla "P1 resolution" "incident" 28800 (Some "priority=1") None (Some "")).
    vm_compute. discriminate.
Defined.

(** ** The SLA duration, further *)

(** X16.  For a duration below one day, [create_sla_definition] sends
    [duration] as [1970-01-01 HH:MM:SS], hours, minutes and seconds on
    two digits each, whatever the conditions and the remote end. *)
Theorem X16_duration_below_one_day_is_clock_time
    (name table : string) (secs : Z) (start stop pause : option string) ev :
  0 <= secs < 86400 ->
  map (fun q => lookup "duration" (payload q))
      (snd (run (create_sla_definition name table secs start stop pause) ev))
  = [Some (VStr ("1970-01-01 " ++ clock secs))].
Proof.
  intros Hn.
  destruct (glide_duration_within_a_day secs Hn) as (td & Htd & Hg).
  unfold run, create_sla_definition. cbv zeta.
  rewrite snd_bind. unfold timedelta_seconds. rewrite Htd. cbn [ret].
  one_post. rewrite Hg. unfold given.
  destruct start as [s1|], stop as [s2|], pause as [s3|]; cbn [of_opt truthy];
    try destruct (String.eqb s1 ""); try destruct (String.eqb s2 "");
    try destruct (String.eqb s3 ""); reflexivity.
Qed.

Lemma X16_duration_below_one_day_witness :
  map (fun q => lookup "duration" (payload q))
      (snd (run (create_sla_definition "P3 response" "incident" 3661
                   None None None) accepting))
  = [Some (VStr "1970-01-01 01:01:01")].
Proof.
  apply (X16_duration_below_one_day_is_clock_time
           "P3 response" "incident" 3661 None None None accepting).
  lia.
Defined.

(** ** When the creation tools do return text *)

(** X17.  As long as the helper's results are mappings and variable
    definitions carry a type name when they carry a [type], every
    creation tool returns text, whatever else the remote end does: error
    statuses, lost connections and unusable bodies all end as a line of
    text, in the parent call and in every dependent call. *)
Theorem X17_creation_tools_return_text ev :
  results_are_mappings ev ->
  (forall sd desc caller urg imp, exists out,
      fst (run (create_incident sd desc caller urg imp) ev) = Return out)
  /\ (forall sd art kb wf, exists out,
      fst (run (create_kb_article sd art kb wf) ev) = Return out)
  /\ (forall name table script ui ty field act, exists out,
      fst (run (create_client_script name table script ui ty field act) ev)
      = Return out)
  /\ (forall name table script when order ins upd del qry act, exists out,
      fst (run (create_business_rule name table script when order
                  ins upd del qry act) ev) = Return out)
  /\ (forall name table secs start stop pause,
      Z.abs (secs / 86400) <= max_delta_days ->
      exists out,
        fst (run (create_sla_definition name table secs start stop pause) ev)
        = Return out)
  /\ (forall name table sd cat script vars sets,
      Forall type_is_name (items vars) ->
      exists out,
        fst (run (create_record_producer name table sd cat script vars sets) ev)
        = Return out)
  /\ (forall name descr vars,
      Forall type_is_name (items vars) ->
      exists out,
        fst (run (create_variable_set name descr vars) ev) = Return out).
Proof.
  intros Hm.
  destruct (single_call_tools_return_text ev [] Hm) as (H1 & H2 & H3 & H4 & H5).
  repeat match goal with |- _ /\ _ => split end; try assumption.
  - intros name table sd cat script vars sets Hd.
    unfold run, create_record_producer. cbv zeta.
    unfold try_except at 1, bind at 1.
    match goal with
    | |- context [_make_servicenow_request ?e ?p "POST" ev []] =>
        pose proof (Hm e p "POST" []) as Hv;
        pose proof (helper_raises_ValueError e p "POST" ev []) as He;
        destruct (_make_servicenow_request e p "POST" ev []) as [[v|e0] l]
    end; simpl in Hv, He.
    + destruct (Hv v eq_refl) as [d ->].
      cbn [get ret]. unfold bind at 1 2. cbn [ret].
      destruct (truthy (dict_get d "sys_id" (VStr ""))); cbn [negb];
        [|eexists; reflexivity].
      rewrite guarded_for_each, guarded_for_each_indexed.
      destruct (variable_set_loop_run (dict_get d "sys_id" (VStr "")) ev
                  (items sets) Hm l []) as (set_qs & set_lines & Hsets & _).
      destruct (variable_loop_run "api/now/table/item_option_new" "cat_item"
                  (dict_get d "sys_id" (VStr "")) ev (items vars) Hm Hd
                  (l ++ set_qs)%list 0 []) as (var_qs & var_lines & Hvars & _).
      unfold bind at 1. rewrite Hsets. unfold bind at 1. cbn [app]. rewrite Hvars.
      cbn [ret fst]. eexists; reflexivity.
    + destruct (He e0 eq_refl) as [msg ->]. cbn. eexists; reflexivity.
  - intros name descr vars Hd.
    unfold run, create_variable_set. cbv zeta.
    unfold try_except at 1, bind at 1.
    match goal with
    | |- context [_make_servicenow_request ?e ?p "POST" ev []] =>
        pose proof (Hm e p "POST" []) as Hv;
        pose proof (helper_raises_ValueError e p "POST" ev []) as He;
        destruct (_make_servicenow_request e p "POST" ev []) as [[v|e0] l]
    end; simpl in Hv, He.
    + destruct (Hv v eq_refl) as [d ->].
      cbn [get ret]. unfold bind at 1 2. cbn [ret].
      destruct (truthy (dict_get d "sys_id" (VStr ""))); cbn [negb];
        [|eexists; reflexivity].
      rewrite guarded_for_each_indexed.
      destruct (variable_loop_run "api/now/table/io_set_variable" "variable_set"
                  (dict_get d "sys_id" (VStr "")) ev (items vars) Hm Hd
                  l 0 []) as (var_qs & var_lines & Hvars & _).
      unfold bind at 1. rewrite Hvars.
      cbn [ret fst]. eexists; reflexivity.
    + destruct (He e0 eq_refl) as [msg ->]. cbn. eexists; reflexivity.
Qed.

Lemma X17_creation_tools_witness :
  exists out,
    fst (run (create_record_producer "Request laptop" "incident" None None None
                two_variables (Some ["0a1b2c"])) flaky) = Return out.
Proof.
  apply (proj1 (proj2 (proj2 (proj2 (proj2 (proj2
           (X17_creation_tools_return_text flaky flaky_results_are_mappings))))))
           "Request laptop" "incident" None None None two_variables (Some ["0a1b2c"])).
  repeat (apply Forall_cons; [right; eexists; reflexivity|]). apply Forall_nil.
Defined.

Lemma length_append (a b : string) :
  String.length (a ++ b) = (String.length a + String.length b)%nat.
Proof. induction a as [|c a IH]; simpl; [reflexivity | now rewrite IH]. Qed.

Lemma split_head_uint (d : Decimal.uint) (rest : string) :
  split_head "." (NilEmpty.string_of_uint d ++ rest)
  = NilEmpty.string_of_uint d ++ split_head "." rest.
Proof. induction d; simpl; rewrite ?IHd; reflexivity. Qed.

(** A decimal numeral holds no dot. *)
Lemma split_head_itoa (n : Z) (rest : string) :
  split_head "." (itoa n ++ rest) = itoa n ++ split_head "." rest.
Proof.
  unfold itoa. destruct (Z.to_int n) as [d|d]; simpl.
  - destruct d; try apply split_head_uint. reflexivity.
  - f_equal. destruct d; try apply split_head_uint. reflexivity.
Qed.

Lemma zfill_long (s : string) : (8 <= String.length s)%nat -> zfill 8 s = s.
Proof.
  intros H. unfold zfill.
  replace (8 - String.length s)%nat with O by lia. cbn [zeros].
  destruct s as [|c r]; [reflexivity|].
  destruct c as [[] [] [] [] [] [] [] []]; reflexivity.
Qed.

(** The clock part of [str(td)]: hours unpadded, no dot in it. *)
Lemma clock_part (r : Z) :
  0 <= r < 86400 ->
  let s := itoa (r / 60 / 60) ++ ":" ++ fmt_02d (r / 60 mod 60)
             ++ ":" ++ fmt_02d (r mod 60) in
  s = itoa (r / 3600) ++ ":" ++ two_digits (r / 60 mod 60)
        ++ ":" ++ two_digits (r mod 60)
  /\ split_head "." s = s.
Proof.
  intros Hr s. subst s.
  assert (Hm : 0 <= r / 60 mod 60 < 60) by (apply Z.mod_pos_bound; lia).
  assert (Hs : 0 <= r mod 60 < 60) by (apply Z.mod_pos_bound; lia).
  rewrite !fmt_02d_two_digits by assumption.
  replace (r / 60 / 60) with (r / 3600)
    by (rewrite Z.div_div by lia; reflexivity).
  split; [reflexivity|].
  rewrite split_head_itoa.
  change (split_head "." (":" ++ two_digits (r / 60 mod 60) ++ ":" ++ two_digits (r mod 60)))
    with (":" ++ split_head "." (two_digits (r / 60 mod 60) ++ ":" ++ two_digits (r mod 60))).
  rewrite split_head_two_digits by assumption.
  change (split_head "." (":" ++ two_digits (r mod 60)))
    with (":" ++ split_head "." (two_digits (r mod 60) ++ "")).
  rewrite split_head_two_digits by assumption.
  cbn [split_head]. now rewrite append_nil_r.
Qed.

(** X18.  For a duration of one day or more, or a negative one, the
    [duration] sent is [1970-01-01 ] followed by [str(td)] as it is: a
    day count, [day] or [days], and the rest of the time with its hours
    unpadded.  Neither [split] nor [zfill(8)] changes it. *)
Theorem X18_duration_with_days_passes_through
    (name table : string) (secs : Z) (start stop pause : option string) ev :
  secs / 86400 <> 0 ->
  Z.abs (secs / 86400) <= max_delta_days ->
  let days := secs / 86400 in
  let r := secs mod 86400 in
  map (fun q => lookup "duration" (payload q))
      (snd (run (create_sla_definition name table secs start stop pause) ev))
  = [Some (VStr ("1970-01-01 " ++ itoa days
                   ++ (if Z.abs days =? 1 then " day, " else " days, ")
                   ++ itoa (r / 3600) ++ ":" ++ two_digits (r / 60 mod 60)
                   ++ ":" ++ two_digits (r mod 60)))].
Proof.
  intros Hd Hb days r.
  assert (Hr : 0 <= r < 86400) by (apply Z.mod_pos_bound; lia).
  destruct (clock_part r Hr) as [Hclock Hsplit]. cbv zeta in Hclock, Hsplit.
  assert (Hg : glide_duration {| td_days := days; td_seconds := r |}
               = "1970-01-01 " ++ itoa days
                   ++ (if Z.abs days =? 1 then " day, " else " days, ")
                   ++ itoa (r / 3600) ++ ":" ++ two_digits (r / 60 mod 60)
                   ++ ":" ++ two_digits (r mod 60)).
  { unfold glide_duration, timedelta_str. cbn [td_days td_seconds]. cbv zeta.
    apply Z.eqb_neq in Hd. fold days in Hd. rewrite Hd.
    set (s := itoa (r / 60 / 60) ++ ":" ++ fmt_02d (r / 60 mod 60)
                ++ ":" ++ fmt_02d (r mod 60)) in *.
    rewrite split_head_itoa.
    assert (Hs : split_head "." (" day" ++ (if Z.abs days =? 1 then "" else "s")
                                   ++ ", " ++ s)
                 = (if Z.abs days =? 1 then " day, " else " days, ") ++ s).
    { destruct (Z.abs days =? 1); cbn [append split_head Ascii.eqb Bool.eqb];
        now rewrite Hsplit. }
    rewrite Hs, zfill_long.
    - now rewrite Hclock.
    - rewrite Hclock, !length_append.
      destruct (Z.abs days =? 1); simpl; lia. }
  unfold run, create_sla_definition. cbv zeta.
  rewrite snd_bind. unfold timedelta_seconds, timedelta_of_seconds.
  fold days r.
  destruct (Z.gtb_spec (Z.abs days) max_delta_days); [unfold days in *; lia|].
  cbn [ret]. one_post. rewrite Hg. unfold given.
  destruct start as [s1|], stop as [s2|], pause as [s3|]; cbn [of_opt truthy];
    try destruct (String.eqb s1 ""); try destruct (String.eqb s2 "");
    try destruct (String.eqb s3 ""); reflexivity.
Qed.

Lemma X18_duration_with_days_witness :
  map (fun q => lookup "duration" (payload q))
      (snd (run (create_sla_definition "P4 resolution" "incident" 200000
                   None None None) accepting))
  = [Some (VStr "1970-01-01 2 days, 7:33:20")].
Proof.
  apply (X18_duration_with_days_passes_through
           "P4 resolution" "incident" 200000 None None None accepting).
  - vm_compute. discriminate.
  - vm_compute. discriminate.
Defined.

(** ** When the creation tools do not return *)

(** X19.  A success response (2xx other than 204) whose JSON object holds
    under [result] anything but a mapping makes every creation tool raise
    [AttributeError] to its caller, after that one request: the helper
    returns the value as it is and the tool's [.get] fails on it. *)
Theorem X19_unmapped_result_escapes_every_creation_tool
    ev (r : response) (body : dict) (v : value) :
  (forall q, service ev [] q = Responded r) ->
  200 <= status_code r <= 299 ->
  status_code r <> 204 ->
  json r = Json (VDict body) ->
  lookup "result" body = Some v ->
  (forall d, v <> VDict d) ->
  let fault : outcome string :=
    Raised (Exc AttributeError
              ("'" ++ type_name v ++ "' object has no attribute 'get'")) in
  (forall sd desc caller urg imp,
      fst (run (create_incident sd desc caller urg imp) ev) = fault)
  /\ (forall sd art kb wf,
      fst (run (create_kb_article sd art kb wf) ev) = fault)
  /\ (forall name table script ui ty field act,
      String.eqb ty "onChange" && negb (given field) = false ->
      fst (run (create_client_script name table script ui ty field act) ev) = fault)
  /\ (forall name table script when order ins upd del qry act,
      fst (run (create_business_rule name table script when order
                  ins upd del qry act) ev) = fault)
  /\ (forall name table secs start stop pause,
      Z.abs (secs / 86400) <= max_delta_days ->
      fst (run (create_sla_definition name table secs start stop pause) ev) = fault)
  /\ (forall name table sd cat script vars sets,
      fst (run (create_record_producer name table sd cat script vars sets) ev)
      = fault)
  /\ (forall name descr vars,
      fst (run (create_variable_set name descr vars) ev) = fault).
Proof.
  intros Hs Hr Hn Hj Hl Hv fault.
  assert (H : forall endpoint p,
             fst (_make_servicenow_request endpoint p "POST" ev []) = Return v).
  { intros. rewrite helper_normal_form by (left; reflexivity).
    rewrite Hs, Hj.
    replace ((200 <=? status_code r) && (status_code r <=? 299)) with true
      by (symmetry; apply andb_true_iff; split; apply Z.leb_le; lia).
    apply Z.eqb_neq in Hn. rewrite Hn. cbn [fst]. unfold dict_get.
    now rewrite Hl. }
  assert (Hget : forall k dflt (ev' : env) (l : list request),
             get v k dflt ev' l
             = (Raised (Exc AttributeError
                          ("'" ++ type_name v ++ "' object has no attribute 'get'")),
                l)).
  { intros. destruct v; try reflexivity. exfalso. eapply Hv. reflexivity. }
  assert (Hshape : forall endpoint p k1 d1 k2 d2
                          (f : value -> value -> string) (g : string -> string),
             fst (try_except
                    (result <- _make_servicenow_request endpoint p "POST" ;;
                     a <- get result k1 d1 ;;
                     b <- get result k2 d2 ;;
                     ret (f a b))
                    [ on ValueError (fun e => ret (g e)) ] ev []) = fault).
  { intros. unfold try_except, bind. specialize (H endpoint p).
    destruct (_make_servicenow_request endpoint p "POST" ev []) as [o l].
    simpl in H. subst o. rewrite Hget. reflexivity. }
  unfold run. repeat match goal with |- _ /\ _ => split end.
  - intros. apply Hshape.
  - intros. apply Hshape.
  - intros name table script ui ty field act Hval. unfold create_client_script.
    rewrite Hval. apply Hshape.
  - intros. apply Hshape.
  - intros name table secs start stop pause Hd. unfold create_sla_definition.
    unfold bind at 1, timedelta_seconds, timedelta_of_seconds.
    destruct (Z.gtb_spec (Z.abs (secs / 86400)) max_delta_days); [lia|].
    cbn [ret]. apply Hshape.
  - intros. unfold create_record_producer. cbv zeta.
    unfold try_except at 1, bind at 1.
    match goal with
    | |- context [_make_servicenow_request ?e ?p "POST" ev []] =>
        specialize (H e p);
        destruct (_make_servicenow_request e p "POST" ev []) as [o l]
    end.
    simpl in H. subst o. unfold bind at 1. rewrite Hget. reflexivity.
  - intros. unfold create_variable_set. cbv zeta.
    unfold try_except at 1, bind at 1.
    match goal with
    | |- context [_make_servicenow_request ?e ?p "POST" ev []] =>
        specialize (H e p);
        destruct (_make_servicenow_request e p "POST" ev []) as [o l]
    end.
    simpl in H. subst o. unfold bind at 1. rewrite Hget. reflexivity.
Qed.

Lemma X19_unmapped_result_witness :
  fst (run (create_variable_set "Laptop details" None two_variables) listless)
  = Raised (Exc AttributeError "'list' object has no attribute 'get'").
Proof.
  refine (proj2 (proj2 (proj2 (proj2 (proj2 (proj2
            (X19_unmapped_result_escapes_every_creation_tool listless
               _ [("result", VList [])] (VList [])
               (fun _ => eq_refl) _ _ eq_refl eq_refl _))))))
            "Laptop details" None two_variables).
  - simpl; lia.
  - discriminate.
  - discriminate.
Defined.
